(** * The guess merging engine of guessit ([guessit/guess.py])

    A shallow embedding of the [Guess] record, of the scalar reconcilers
    [choose_int] and [choose_string], and of the merge functions
    [_merge_similar_guesses_nocheck], [merge_similar_guesses],
    [merge_append_guesses] and [merge_all], followed by the properties
    of the natural-language specification that concern them.

    Conventions of the embedding.
    - A Python exception is a value [Raise e] of the [outcome] monad.  The
      store reached at the moment of a [Raise] is not kept.
    - Property values are integers, byte strings and lists of values.
    - A dict is a finite map ([gmap]); its iteration order, unspecified in
      CPython 2, is the one of [map_to_list].  What is proved of a loop
      over the keys of a dict is proved for any order of the keys.
    - Guess objects live in a store indexed by references, so that two
      entries of a Python list may be the same object.
    - Confidences are Python numbers.  The code only uses [0], [1], [-],
      [*], the comparisons and the literal [0.05] on them, which is the
      interface [PyNum]; its instances are IEEE 754 binary64 ([float])
      and exact rationals ([fractions.Fraction]).  The integer literals
      [0] and [1] are taken in the number type of the confidences, as the
      arithmetic of Python converts them.
    - Calls to [log] build their message and have no other effect. *)

From Stdlib Require Import ZArith QArith Qabs Bool List String Ascii Lia.
From Stdlib Require Import Floats.SpecFloat.
From stdpp Require Import gmap strings list fin_maps functions.

(** ** Exceptions *)

Inductive exn := KeyError | TypeError | ValueError | IndexError | AttributeError.

Inductive outcome (A : Type) :=
  | Ok (a : A)
  | Raise (e : exn).
Arguments Ok {A} a.
Arguments Raise {A} e.

#[global] Instance outcome_ret : MRet outcome := fun A a => Ok a.
#[global] Instance outcome_bind : MBind outcome :=
  fun A B f m => match m with Ok a => f a | Raise e => Raise e end.

(** [for x in l: s = body(s, x)], stopping at the first exception. *)
Fixpoint for_each {A S : Type} (body : S -> A -> outcome S) (s : S) (l : list A)
  : outcome S :=
  match l with
  | [] => Ok s
  | x :: l' => s' ← body s x; for_each body s' l'
  end.

(** ** Numbers *)

(** What the code asks of a confidence.  [a > b] is [num_ltb b a] and
    [a >= b] is [num_leb b a]. *)
Class PyNum (C : Type) := {
  num_zero : C;
  num_one : C;
  num_sub : C -> C -> C;
  num_mul : C -> C -> C;
  num_eqb : C -> C -> bool;
  num_ltb : C -> C -> bool;
  num_leb : C -> C -> bool;
  num_0_05 : C
}.

(** The order facts shared by every Python number type. *)
Class PyNumLaws (C : Type) `{PyNum C} : Prop := {
  num_ltb_asym : forall a b : C, num_ltb a b = true -> num_ltb b a = false;
  num_eqb_not_ltb : forall a b : C, num_eqb a b = true -> num_ltb b a = false;
  num_eqb_leb : forall a b : C, num_eqb a b = true -> num_leb b a = true
}.

(** [max(a, b)]. *)
Definition num_max {C : Type} `{PyNum C} (a b : C) : C :=
  if num_ltb a b then b else a.

(** [0 <= c <= 1]. *)
Definition in_unit_interval {C : Type} `{PyNum C} (c : C) : Prop :=
  num_leb num_zero c = true /\ num_leb c num_one = true.

(** *** [float]: IEEE 754 binary64, round to nearest even *)

Definition prec : Z := 53.
Definition emax : Z := 1024.

Definition f64_of_Z (z : Z) : spec_float := binary_normalize prec emax z 0 false.

(** The float nearest to the decimal literal [n/d], for integers [n]
    and [d] that binary64 represents exactly. *)
Definition f64_lit (n d : Z) : spec_float :=
  SFdiv prec emax (f64_of_Z n) (f64_of_Z d).

Definition f64_is_finite (x : spec_float) : bool :=
  match x with
  | S754_zero _ | S754_finite _ _ _ => true
  | _ => false
  end.

#[global] Instance float_num : PyNum spec_float := {|
  num_zero := S754_zero false;
  num_one := f64_of_Z 1;
  num_sub := SFsub prec emax;
  num_mul := SFmul prec emax;
  num_eqb := SFeqb;
  num_ltb := SFltb;
  num_leb := SFleb;
  num_0_05 := f64_lit 5 100
|}.

(** *** [fractions.Fraction]: exact rationals in lowest terms.
    A [Fraction] is compared with the float [0.05] through the exact
    value of that float, [3602879701896397 / 2^56]. *)

#[global] Instance fraction_num : PyNum Q := {|
  num_zero := 0%Q;
  num_one := 1%Q;
  num_sub := fun a b => Qred (a - b);
  num_mul := fun a b => Qred (a * b);
  num_eqb := Qeq_bool;
  num_ltb := fun a b => negb (Qle_bool b a);
  num_leb := Qle_bool;
  num_0_05 := (3602879701896397 # 72057594037927936)%Q
|}.

(** ** Values *)

#[warnings="-register-all"]
Inductive value :=
  | VInt (n : Z)
  | VStr (s : string)
  | VList (l : list value).

(** Python's [==] on these values. *)
Fixpoint value_eqb (a b : value) : bool :=
  match a, b with
  | VInt x, VInt y => Z.eqb x y
  | VStr x, VStr y => String.eqb x y
  | VList xs, VList ys =>
      (fix go (xs ys : list value) : bool :=
         match xs, ys with
         | [], [] => true
         | x :: xs', y :: ys' => value_eqb x y && go xs' ys'
         | _, _ => false
         end) xs ys
  | _, _ => false
  end.

(** [a + b]. *)
Definition py_add (a b : value) : outcome value :=
  match a, b with
  | VInt x, VInt y => Ok (VInt (x + y))
  | VStr x, VStr y => Ok (VStr (String.append x y))
  | VList x, VList y => Ok (VList (x ++ y))
  | _, _ => Raise TypeError
  end.

Definition is_hashable (v : value) : bool :=
  match v with VList _ => false | _ => true end.

(** The distinct elements of a list, first occurrences kept. *)
Fixpoint distinct (l : list value) : list value :=
  match l with
  | [] => []
  | x :: l' => x :: List.filter (fun y => negb (value_eqb x y)) (distinct l')
  end.

Fixpoint chars (s : string) : list value :=
  match s with
  | EmptyString => []
  | String c s' => VStr (String c EmptyString) :: chars s'
  end.

(** [list(set(v))]; Python does not specify the order of the elements. *)
Definition py_list_set (v : value) : outcome value :=
  match v with
  | VInt _ => Raise TypeError
  | VStr s => Ok (VList (distinct (chars s)))
  | VList l => if forallb is_hashable l then Ok (VList (distinct l))
               else Raise TypeError
  end.

(** [l.append(x)] on the value held in a dict slot. *)
Definition py_append (l x : value) : outcome value :=
  match l with
  | VList xs => Ok (VList (xs ++ [x]))
  | _ => Raise AttributeError
  end.

(** [l[i]]. *)
Definition py_index {A : Type} (l : list A) (i : nat) : outcome A :=
  match nth_error l i with
  | Some x => Ok x
  | None => Raise IndexError
  end.

(** [fmt % (a1, ..., an)]: the number of conversion specifiers of [fmt]
    must be [n]. *)
Fixpoint count_specs (fmt : string) : nat :=
  match fmt with
  | EmptyString => 0
  | String "%" (String "%" s') => count_specs s'
  | String "%" s' => S (count_specs s')
  | String _ s' => count_specs s'
  end.

Definition percent_format (fmt : string) (args : list value) : outcome unit :=
  if Nat.eqb (count_specs fmt) (length args) then Ok tt else Raise TypeError.

(** ** Byte strings *)

(** [str.isspace] on one byte: tab, newline, vertical tab, form feed,
    carriage return, space. *)
Definition is_space (c : ascii) : bool :=
  let n := N_of_ascii c in
  ((9 <=? n)%N && (n <=? 13)%N) || (n =? 32)%N.

Fixpoint lstrip (s : string) : string :=
  match s with
  | EmptyString => EmptyString
  | String c s' => if is_space c then lstrip s' else s
  end.

Fixpoint rstrip (s : string) : string :=
  match s with
  | EmptyString => EmptyString
  | String c s' =>
      match rstrip s' with
      | EmptyString => if is_space c then EmptyString else String c EmptyString
      | r => String c r
      end
  end.

Definition strip (s : string) : string := rstrip (lstrip s).

Definition lower_char (c : ascii) : ascii :=
  let n := N_of_ascii c in
  if ((65 <=? n)%N && (n <=? 90)%N) then ascii_of_N (n + 32) else c.

Fixpoint lower (s : string) : string :=
  match s with
  | EmptyString => EmptyString
  | String c s' => String (lower_char c) (lower s')
  end.

(** [sub in s]. *)
Fixpoint py_in (sub s : string) : bool :=
  String.prefix sub s ||
  match s with
  | EmptyString => false
  | String _ s' => py_in sub s'
  end.

(** Every byte of [s] is whitespace. *)
Fixpoint all_space (s : string) : bool :=
  match s with
  | EmptyString => true
  | String c s' => is_space c && all_space s'
  end.

Definition starts_with_space (s : string) : bool :=
  match s with
  | EmptyString => false
  | String c _ => is_space c
  end.

Fixpoint ends_with_space (s : string) : bool :=
  match s with
  | EmptyString => false
  | String c EmptyString => is_space c
  | String _ s' => ends_with_space s'
  end.

(** ** Dicts *)

Definition contains_key {V : Type} (d : gmap string V) (k : string) : bool :=
  match d !! k with Some _ => true | None => false end.

(** [d[k]]. *)
Definition getitem {V : Type} (d : gmap string V) (k : string) : outcome V :=
  match d !! k with
  | Some v => Ok v
  | None => Raise KeyError
  end.

Definition keys {V : Type} (d : gmap string V) : list string :=
  (map_to_list d).*1.

(** [a == b] on dicts: same size, and every item of [a] is in [b]. *)
Definition dict_eqb (a b : gmap string value) : bool :=
  Nat.eqb (size a) (size b) &&
  forallb (fun kv => match b !! kv.1 with
                     | Some w => value_eqb kv.2 w
                     | None => false
                     end) (map_to_list a).

Section Merging.
Context {C : Type} `{PyNum C}.

(** ** Scalar reconcilers *)

(** [1 - (1-c1)*(1-c2)]. *)
Definition combined_prob (c1 c2 : C) : C :=
  num_sub num_one (num_mul (num_sub num_one c1) (num_sub num_one c2)).

Definition choose_int (g1 g2 : value * C) : value * C :=
  let '(v1, c1) := g1 in
  let '(v2, c2) := g2 in
  if value_eqb v1 v2 then
    (v1, num_sub num_one (num_mul (num_sub num_one c1) (num_sub num_one c2)))
  else
    if num_ltb c2 c1 then (v1, num_sub c1 c2)
    else (v2, num_sub c2 c1).

Definition choose_string (g1 g2 : string * C) : string * C :=
  let '(v1, c1) := g1 in
  let '(v2, c2) := g2 in
  let v1 := strip v1 in
  let v2 := strip v2 in
  let v1l := lower v1 in
  let v2l := lower v2 in
  let combined_prob :=
    num_sub num_one (num_mul (num_sub num_one c1) (num_sub num_one c2)) in
  if String.eqb v1l v2l then (v1, combined_prob)
  else if String.eqb v1l (String.append "the " v2l) then (v1, combined_prob)
  else if String.eqb v2l (String.append "the " v1l) then (v2, combined_prob)
  else if py_in v2l v1l then (v2, combined_prob)
  else if py_in v1l v2l then (v1, combined_prob)
  else
    if num_ltb c2 c1 then (v1, num_sub c1 c2)
    else (v2, num_sub c2 c1).

(** The reconcilers as they are handed to the merge functions, on
    untyped values: [strip] exists on strings only. *)
Definition choose_int_value (g1 g2 : value * C) : outcome (value * C) :=
  Ok (choose_int g1 g2).

Definition choose_string_value (g1 g2 : value * C) : outcome (value * C) :=
  match g1.1, g2.1 with
  | VStr s1, VStr s2 =>
      let r := choose_string (s1, g1.2) (s2, g2.2) in Ok (VStr r.1, r.2)
  | _, _ => Raise AttributeError
  end.

(** ** The Guess record *)

(** [items] is the dict the class inherits from, [_confidence] the
    attribute of the same name. *)
Record Guess := mkGuess {
  items : gmap string value;
  _confidence : gmap string C
}.

(** [Guess(d, confidence=c)]; without the keyword the confidence is [0]. *)
Definition Guess_init (d : gmap string value) (confidence : option C) : Guess :=
  let confidence := match confidence with Some c => c | None => num_zero end in
  mkGuess d (foldl (fun conf prop => <[prop := confidence]> conf) ∅ (keys d)).

(** [Guess({k1: v1, ...}, confidence=c)], for distinct keys. *)
Definition guess_of (l : list (string * value)) (c : C) : Guess :=
  Guess_init (list_to_map l) (Some c).

Definition Guess_confidence (self : Guess) (prop : string) : outcome C :=
  getitem (_confidence self) prop.

(** [self[prop] = value] and [del self[prop]], inherited from dict. *)
Definition Guess_setitem (self : Guess) (prop : string) (v : value) : Guess :=
  mkGuess (<[prop := v]> (items self)) (_confidence self).

Definition Guess_delitem (self : Guess) (prop : string) : outcome Guess :=
  if contains_key (items self) prop
  then Ok (mkGuess (delete prop (items self)) (_confidence self))
  else Raise KeyError.

Definition Guess_set_confidence (self : Guess) (prop : string) (c : C) : Guess :=
  mkGuess (items self) (<[prop := c]> (_confidence self)).

Definition Guess_set (self : Guess) (prop : string) (v : value)
    (confidence : option C) : Guess :=
  let self := Guess_setitem self prop v in
  match confidence with
  | Some c => Guess_set_confidence self prop c
  | None => self
  end.

(** The argument of [update]: a plain dict or a Guess. *)
Inductive mapping :=
  | PlainDict (d : gmap string value)
  | GuessObj (g : Guess).

Definition mapping_items (m : mapping) : gmap string value :=
  match m with PlainDict d => d | GuessObj g => items g end.

Definition Guess_update (self : Guess) (other : mapping) (confidence : option C)
  : outcome Guess :=
  let d := mapping_items other in
  let self := mkGuess (d ∪ items self) (_confidence self) in
  self ← match other with
         | GuessObj o =>
             for_each (fun self prop =>
                         c ← Guess_confidence o prop;
                         Ok (Guess_set_confidence self prop c))
                      self (keys d)
         | PlainDict _ => Ok self
         end;
  match confidence with
  | Some c => Ok (foldl (fun self prop => Guess_set_confidence self prop c)
                        self (keys d))
  | None => Ok self
  end.

(** One turn of the loop of [update_highest_confidence]. *)
Definition update_highest_confidence_step (other self : Guess) (prop : string)
  : outcome Guess :=
  skip ← (if contains_key (items self) prop then
            cs ← getitem (_confidence self) prop;
            co ← getitem (_confidence other) prop;
            Ok (num_leb co cs)
          else Ok false);
  if (skip : bool) then Ok self
  else
    v ← getitem (items other) prop;
    c ← getitem (_confidence other) prop;
    Ok (Guess_set_confidence (Guess_setitem self prop v) prop c).

(** [other] is a Guess by its type, so the [ValueError] of the source
    cannot be raised. *)
Definition Guess_update_highest_confidence (self other : Guess) : outcome Guess :=
  for_each (update_highest_confidence_step other) self (keys (items other)).

(** Every property of the guess has a confidence. *)
Definition has_confidences (g : Guess) : Prop :=
  forall k, is_Some (items g !! k) -> is_Some (_confidence g !! k).

(** The value and the confidence a guess holds for a property. *)
Definition at_key (g : Guess) (k : string) : option value * option C :=
  (items g !! k, _confidence g !! k).

(** What [self.update_highest_confidence(other)] is meant to leave in
    [self] for the property [k], when both guesses have their confidences. *)
Definition highest_at (self other : Guess) (k : string)
  : option value * option C :=
  match items other !! k, _confidence other !! k with
  | Some v, Some co =>
      match items self !! k, _confidence self !! k with
      | Some vs, Some cs =>
          if num_leb co cs then (Some vs, Some cs) else (Some v, Some co)
      | _, _ => (Some v, Some co)
      end
  | _, _ => (items self !! k, _confidence self !! k)
  end.

(** ** The store and the working list *)

Definition ref := nat.

Record state := mkState {
  heap : ref -> Guess;
  guesses : list ref
}.

(** The store whose object number [i] is the [i]-th guess of [l]. *)
Definition store_of (l : list Guess) : ref -> Guess :=
  fun r => nth r l (Guess_init ∅ None).

(** [[guess for guess in guesses if prop in guess]]. *)
Definition similar_guesses (h : ref -> Guess) (prop : string) (l : list ref)
  : list ref :=
  List.filter (fun g => contains_key (items (h g)) prop) l.

(** [len(set(g1) & set(g2))]. *)
Definition common_props (g1 g2 : Guess) : nat :=
  size (dom (items g1) ∩ dom (items g2)).

(** [l.remove(x)]: the first entry that is [x] or equals it as a dict. *)
Fixpoint list_remove (h : ref -> Guess) (x : ref) (l : list ref)
  : outcome (list ref) :=
  match l with
  | [] => Raise ValueError
  | g :: l' =>
      if Nat.eqb g x || dict_eqb (items (h g)) (items (h x)) then Ok l'
      else l'' ← list_remove h x l'; Ok (g :: l'')
  end.

(** ** Pairwise merge *)

Definition _merge_similar_guesses_nocheck
    (choose : value * C -> value * C -> outcome (value * C))
    (prop : string) (st : state) : outcome state :=
  let similar := similar_guesses (heap st) prop (guesses st) in
  g1 ← py_index similar 0;
  g2 ← py_index similar 1;
  if Nat.ltb 1 (common_props (heap st g1) (heap st g2)) then Ok st
  else
    v1 ← getitem (items (heap st g1)) prop;
    v2 ← getitem (items (heap st g2)) prop;
    c1 ← Guess_confidence (heap st g1) prop;
    c2 ← Guess_confidence (heap st g2) prop;
    nv ← choose (v1, c1) (v2, c2);
    let h := <[g2 := Guess_set_confidence
                       (Guess_setitem (heap st g2) prop nv.1) prop nv.2]>
               (heap st) in
    g1' ← Guess_update (h g1) (GuessObj (h g2)) None;
    let h := <[g1 := g1']> h in
    l ← list_remove h g2 (guesses st);
    Ok (mkState h l).

(** [fuel] bounds the depth of the recursion; [None] means that the
    depth was not enough. *)
Fixpoint merge_similar_guesses (fuel : nat)
    (choose : value * C -> value * C -> outcome (value * C))
    (prop : string) (st : state) : option (outcome state) :=
  match fuel with
  | O => None
  | S fuel' =>
      let similar := similar_guesses (heap st) prop (guesses st) in
      if Nat.ltb (length similar) 2 then Some (Ok st)
      else
        match (if Nat.eqb (length similar) 2
               then _merge_similar_guesses_nocheck choose prop st
               else Ok st) with
        | Raise e => Some (Raise e)
        | Ok st =>
            if Nat.ltb 2 (length similar) then
              match _merge_similar_guesses_nocheck choose prop st with
              | Raise e => Some (Raise e)
              | Ok st => merge_similar_guesses fuel' choose prop st
              end
            else Some (Ok st)
        end
  end.

(** ** Append merge *)

(** The format string of the warning, [overwriting property "%s" with value ]. *)
Definition overwriting_fmt : string :=
  String.append "overwriting property "
    (String "034" (String.append "%s" (String "034" " with value "))).

(** The body of [for prop2 in m]. *)
Definition merge_append_step (prop : string) (merged m : ref)
    (h : ref -> Guess) (prop2 : string) : outcome (ref -> Guess) :=
  if String.eqb prop prop2 then
    l ← getitem (items (h merged)) prop;
    x ← getitem (items (h m)) prop;
    l' ← py_append l x;
    Ok (<[merged := Guess_setitem (h merged) prop l']> h)
  else
    _ ← (if contains_key (items (h m)) prop2 then
           v ← getitem (items (h m)) prop2;
           percent_format overwriting_fmt [VStr prop2; v]
         else Ok tt);
    v ← getitem (items (h m)) prop2;
    Ok (<[merged := Guess_setitem (h merged) prop2 v]> h).

Definition merge_append_guesses (prop : string) (st : state) : outcome state :=
  let similar := similar_guesses (heap st) prop (guesses st) in
  match similar with
  | [] => Ok st
  | merged :: rest =>
      v ← getitem (items (heap st merged)) prop;
      let h := <[merged := Guess_setitem (heap st merged) prop (VList [v])]>
                 (heap st) in
      for_each (fun st m =>
                  h ← for_each (merge_append_step prop merged m) (heap st)
                               (keys (items (heap st m)));
                  l ← list_remove h m (guesses st);
                  Ok (mkState h l))
               (mkState h (guesses st)) rest
  end.

(** ** Final reduction *)

(** The body of [for prop in append] in the main loop. *)
Definition merge_all_append_step (result g : ref) (h : ref -> Guess)
    (prop : string) : outcome (ref -> Guess) :=
  if contains_key (items (h g)) prop then
    let cur := match items (h result) !! prop with
               | Some v => v
               | None => VList []
               end in
    x ← getitem (items (h g)) prop;
    new ← py_add cur (VList [x]);
    c ← Guess_confidence (h g) prop;
    let h := <[result := Guess_set (h result) prop new (Some c)]> h in
    g' ← Guess_delitem (h g) prop;
    Ok (<[g := g']> h)
  else Ok h.

Definition merge_all_step (append : list string) (result : ref)
    (h : ref -> Guess) (g : ref) : outcome (ref -> Guess) :=
  h ← for_each (merge_all_append_step result g) h append;
  r ← Guess_update_highest_confidence (h result) (h g);
  Ok (<[result := r]> h).

Definition merge_all_prune_step (result : ref) (h : ref -> Guess) (p : string)
  : outcome (ref -> Guess) :=
  c ← Guess_confidence (h result) p;
  if num_ltb c num_0_05 then
    r ← Guess_delitem (h result) p;
    Ok (<[result := r]> h)
  else Ok h.

Definition merge_all_unique_step (result : ref) (h : ref -> Guess)
    (prop : string) : outcome (ref -> Guess) :=
  if contains_key (items (h result)) prop then
    v ← getitem (items (h result)) prop;
    l ← py_list_set v;
    Ok (<[result := Guess_setitem (h result) prop l]> h)
  else Ok h.

(** Returns the final store and the state of the returned Guess. *)
Definition merge_all (h : ref -> Guess) (guesses : list ref)
    (append : list string) : outcome ((ref -> Guess) * Guess) :=
  match guesses with
  | [] => Ok (h, Guess_init ∅ None)
  | result :: rest =>
      h ← for_each (merge_all_step append result) h rest;
      h ← for_each (merge_all_prune_step result) h (keys (items (h result)));
      h ← for_each (merge_all_unique_step result) h append;
      Ok (h, h result)
  end.

(** The Guess that [merge_all] returns. *)
Definition returned (o : outcome ((ref -> Guess) * Guess)) : outcome Guess :=
  p ← o; Ok p.2.

End Merging.

Arguments Guess C : clear implicits.
Arguments state C : clear implicits.
Arguments mapping C : clear implicits.

(** ** Specifications of the further properties *)

(** What [self.update(other, confidence)] leaves in [self] for the
    property [k], when [other] has the values [d] and the confidences
    [conf]. *)
Definition updated_at {C : Type} `{PyNum C} (self : Guess C)
    (d : gmap string value) (conf : gmap string C) (confidence : option C)
    (k : string) : option value * option C :=
  match d !! k with
  | Some v => (Some v, match confidence with
                       | Some c => Some c
                       | None => conf !! k
                       end)
  | None => at_key self k
  end.

(** What the pruning loop of [merge_all] leaves of the property [k]. *)
Definition pruned_at {C : Type} `{PyNum C} (g : Guess C) (k : string)
  : option value * option C :=
  match _confidence g !! k with
  | Some c => (if num_ltb c num_0_05 then None else items g !! k, Some c)
  | None => (items g !! k, None)
  end.

(** Multiplication and [==] do not depend on the order of their
    operands. *)
Class PyNumSym (C : Type) `{PyNum C} : Prop := {
  num_mul_comm : forall a b : C, num_mul a b = num_mul b a;
  num_eqb_sym : forall a b : C, num_eqb a b = num_eqb b a
}.

(** ** Inputs of the examples *)

(** The float [0.09999999999999998], that is [0x1.9999999999998p-4]. *)
Definition below_one_tenth : spec_float :=
  S754_finite false 7205759403792792 (-56).

(** The second example of the docstring of [merge_all]. *)
Definition pruned_example : outcome (Guess spec_float) :=
  returned (merge_all
              (store_of [guess_of [("episodeNumber", VInt 27)] (f64_lit 2 100);
                         guess_of [("season", VInt 1)] (f64_lit 2 10)])
              [0; 1] []).

(** Three guesses with a season, the first two also sharing the episode
    number. *)
Definition ambiguous_state : state spec_float :=
  mkState
    (store_of [guess_of [("season", VInt 1); ("episodeNumber", VInt 2)] (f64_lit 8 10);
               guess_of [("season", VInt 1); ("episodeNumber", VInt 3)] (f64_lit 8 10);
               guess_of [("season", VInt 2)] (f64_lit 8 10)])
    [0; 1; 2].

(** Two guesses with a language, the second one with a title too. *)
Definition append_state : state spec_float :=
  mkState
    (store_of [guess_of [("language", VStr "en")] (f64_lit 8 10);
               guess_of [("language", VStr "fr"); ("title", VStr "Dexter")]
                        (f64_lit 8 10)])
    [0; 1].

(** Two guesses that carry a language and nothing else. *)
Definition languages_state : state spec_float :=
  mkState
    (store_of [guess_of [("language", VStr "en")] (f64_lit 8 10);
               guess_of [("language", VStr "fr")] (f64_lit 8 10)])
    [0; 1].

(** Three guesses with a season, no two of them sharing another property. *)
Definition three_seasons_state : state spec_float :=
  mkState
    (store_of [guess_of [("season", VInt 1); ("episodeNumber", VInt 2)] (f64_lit 8 10);
               guess_of [("season", VInt 1)] (f64_lit 5 10);
               guess_of [("season", VInt 2)] (f64_lit 3 10)])
    [0; 1; 2].

(** One guess with an episode number of very low confidence. *)
Definition unlikely_episode_store : ref -> Guess spec_float :=
  store_of [guess_of [("episodeNumber", VInt 27)] (f64_lit 2 100)].

(** One guess with an episode number. *)
Definition single_episode : outcome (Guess spec_float) :=
  returned (merge_all
              (store_of [guess_of [("episodeNumber", VInt 1)] (f64_lit 8 10)])
              [0] ["episodeNumber"]).

(** Two guesses with an episode number each. *)
Definition two_episodes : outcome (Guess spec_float) :=
  returned (merge_all
              (store_of [guess_of [("episodeNumber", VInt 1)] (f64_lit 8 10);
                         guess_of [("episodeNumber", VInt 2)] (f64_lit 8 10)])
              [0; 1] ["episodeNumber"]).

(** The episode numbers come after a guess that has none. *)
Definition episodes_after_season : outcome (Guess spec_float) :=
  returned (merge_all
              (store_of [guess_of [("season", VInt 1)] (f64_lit 8 10);
                         guess_of [("episodeNumber", VInt 1)] (f64_lit 8 10);
                         guess_of [("episodeNumber", VInt 2); ("year", VInt 2006)]
                                  (f64_lit 6 10);
                         guess_of [("episodeNumber", VInt 1)] (f64_lit 7 10)])
              [0; 1; 2; 3] ["episodeNumber"]).


(** * Properties *)

(** ** Numbers *)

(** The floats that the examples write as decimal literals: [0.05],
    [0.1], [0.5], [0.75] and [1.0]. *)
Lemma float_literals :
  f64_lit 5 100 = S754_finite false 7205759403792794 (-57) /\
  f64_lit 1 10 = S754_finite false 7205759403792794 (-56) /\
  f64_lit 5 10 = S754_finite false 4503599627370496 (-53) /\
  f64_lit 75 100 = S754_finite false 6755399441055744 (-53) /\
  f64_of_Z 1 = S754_finite false 4503599627370496 (-52).
Proof. vm_compute. auto. Qed.

Lemma SFcompare_swap (x y : spec_float) :
  SFcompare y x = option_map CompOpp (SFcompare x y).
Proof.
  destruct x as [sx|sx| |sx mx ex], y as [sy|sy| |sy my ey]; simpl;
    try reflexivity; try (destruct sx; reflexivity); try (destruct sy; reflexivity);
    try (destruct sx, sy; reflexivity).
  pose proof (Pos.compare_cont_antisym mx my Eq) as E. simpl in E.
  destruct sx, sy; simpl; try reflexivity;
    rewrite (Z.compare_antisym ex ey);
    destruct (ex ?= ey)%Z; simpl; try reflexivity; rewrite <- E;
    destruct (Pos.compare_cont Eq mx my); reflexivity.
Qed.

#[global] Instance float_laws : PyNumLaws spec_float.
Proof.
  split; intros a b; simpl; unfold SFltb, SFeqb, SFleb;
    rewrite (SFcompare_swap a b);
    destruct (SFcompare a b) as [[]|]; simpl; congruence.
Qed.

#[global] Instance fraction_laws : PyNumLaws Q.
Proof.
  split; intros a b; simpl.
  - rewrite negb_true_iff, negb_false_iff. intros Hlt.
    apply Qle_bool_iff. destruct (Qlt_le_dec b a) as [Hba|Hab]; [|exact Hab].
    apply Qlt_le_weak in Hba. apply Qle_bool_iff in Hba. congruence.
  - intros Heq. apply Qeq_bool_iff in Heq. rewrite negb_false_iff.
    apply Qle_bool_iff. rewrite Heq. apply Qle_refl.
  - intros Heq. apply Qeq_bool_iff in Heq. apply Qle_bool_iff.
    rewrite Heq. apply Qle_refl.
Qed.

(** Subtracting a finite float from a float equal to it gives zero. *)
Lemma float_sub_tie (a b : spec_float) :
  f64_is_finite a = true -> SFeqb a b = true ->
  SFeqb (SFsub prec emax b a) (S754_zero false) = true.
Proof.
  unfold SFeqb.
  destruct a as [sa|sa| |sa ma ea], b as [sb|sb| |sb mb eb]; simpl;
    try discriminate; intros _.
  all: try (destruct sa; discriminate).
  all: try (destruct sb; discriminate).
  - destruct sa, sb; reflexivity.
  - intros E.
    assert (sa = sb /\ ea = eb /\ ma = mb) as (-> & -> & ->).
    { destruct sa, sb; try discriminate;
        destruct (Z.compare_spec ea eb) as [He|He|He]; try discriminate;
        destruct (Pos.compare_cont Eq ma mb) eqn:Hm; try discriminate;
        apply (proj1 (Pos.compare_eq_iff ma mb)) in Hm; auto. }
    rewrite Z.sub_diag. reflexivity.
Qed.

Lemma fraction_combined_prob (c1 c2 : Q) :
  (combined_prob c1 c2 == 1 - (1 - c1) * (1 - c2))%Q.
Proof.
  unfold combined_prob. simpl. rewrite !Qred_correct. reflexivity.
Qed.

Lemma fraction_sub_tie (a b : Q) :
  Qeq_bool a b = true -> Qeq_bool (Qred (b - a)) 0 = true.
Proof.
  intros E. apply Qeq_bool_iff in E. apply Qeq_bool_iff.
  rewrite Qred_correct, E. ring.
Qed.

(** ** Values *)

Lemma value_eqb_refl (v : value) : value_eqb v v = true.
Proof.
  revert v. fix IH 1. intros [n|s|l]; simpl.
  - apply Z.eqb_refl.
  - apply String.eqb_refl.
  - induction l as [|x l IHl]; [reflexivity|].
    rewrite (IH x). exact IHl.
Qed.

Lemma value_eqb_eq (a b : value) : value_eqb a b = true <-> a = b.
Proof.
  split; [|intros ->; apply value_eqb_refl].
  revert a b. fix IH 1. intros [n|s|l] [n'|s'|l']; simpl; try discriminate.
  - intros E. apply Z.eqb_eq in E. congruence.
  - intros E. apply String.eqb_eq in E. congruence.
  - intros E. f_equal. revert l' E.
    induction l as [|x l IHl]; intros [|y l'] E; try discriminate; [reflexivity|].
    apply andb_true_iff in E. destruct E as [E1 E2].
    f_equal; [apply IH; exact E1 | apply IHl; exact E2].
Qed.

Lemma value_eqb_neq (a b : value) : value_eqb a b = false <-> a <> b.
Proof.
  rewrite <- value_eqb_eq. destruct (value_eqb a b); split; congruence.
Qed.

(** ** [choose_int] *)

Lemma choose_int_equal {C : Type} `{PyNum C} (v : value) (c1 c2 : C) :
  choose_int (v, c1) (v, c2) = (v, combined_prob c1 c2).
Proof. unfold choose_int. rewrite value_eqb_refl. reflexivity. Qed.

Section ChooseInt.
Context {C : Type} `{PyNumLaws C}.

Lemma choose_int_first (v1 v2 : value) (c1 c2 : C) :
  v1 <> v2 -> num_ltb c2 c1 = true ->
  choose_int (v1, c1) (v2, c2) = (v1, num_sub c1 c2).
Proof.
  intros Hv Hc. apply value_eqb_neq in Hv.
  unfold choose_int. rewrite Hv, Hc. reflexivity.
Qed.

Lemma choose_int_second (v1 v2 : value) (c1 c2 : C) :
  v1 <> v2 -> num_ltb c1 c2 = true ->
  choose_int (v1, c1) (v2, c2) = (v2, num_sub c2 c1).
Proof.
  intros Hv Hc. apply value_eqb_neq in Hv. apply num_ltb_asym in Hc.
  unfold choose_int. rewrite Hv, Hc. reflexivity.
Qed.

Lemma choose_int_tie (v1 v2 : value) (c1 c2 : C) :
  v1 <> v2 -> num_eqb c1 c2 = true ->
  choose_int (v1, c1) (v2, c2) = (v2, num_sub c2 c1).
Proof.
  intros Hv Hc. apply value_eqb_neq in Hv. apply num_eqb_not_ltb in Hc.
  unfold choose_int. rewrite Hv, Hc. reflexivity.
Qed.

End ChooseInt.

Lemma fraction_unit_interval (c : Q) :
  in_unit_interval c -> (0 <= c <= 1)%Q.
Proof.
  intros [H0 H1]. simpl in H0, H1.
  split; apply Qle_bool_iff; assumption.
Qed.

Lemma fraction_combined_prob_bound (c1 c2 : Q) :
  in_unit_interval c1 -> in_unit_interval c2 ->
  num_leb (num_max c1 c2) (combined_prob c1 c2) = true.
Proof.
  intros H1 H2.
  apply fraction_unit_interval in H1. apply fraction_unit_interval in H2.
  destruct H1 as [H1 H1'], H2 as [H2 H2'].
  change (Qle_bool (num_max c1 c2) (combined_prob c1 c2) = true).
  apply Qle_bool_iff. rewrite fraction_combined_prob.
  unfold num_max. simpl. destruct (negb (Qle_bool c2 c1)).
  - apply Qle_minus_iff.
    setoid_replace (1 - (1 - c1) * (1 - c2) + - c2)%Q with (c1 * (1 - c2))%Q using relation Qeq by ring.
    apply Qmult_le_0_compat; [assumption|].
    apply -> Qle_minus_iff. assumption.
  - apply Qle_minus_iff.
    setoid_replace (1 - (1 - c1) * (1 - c2) + - c1)%Q with (c2 * (1 - c1))%Q using relation Qeq by ring.
    apply Qmult_le_0_compat; [assumption|].
    apply -> Qle_minus_iff. assumption.
Qed.

Lemma fraction_conflict_confidence (v1 v2 : value) (c1 c2 : Q) :
  v1 <> v2 -> ((choose_int (v1, c1) (v2, c2)).2 == Qabs (c1 - c2))%Q.
Proof.
  intros Hv. apply value_eqb_neq in Hv.
  unfold choose_int. rewrite Hv.
  change (num_ltb c2 c1) with (negb (Qle_bool c1 c2)).
  destruct (Qle_bool c1 c2) eqn:Hle; cbn [negb snd num_sub fraction_num];
    rewrite Qred_correct.
  - apply Qle_bool_iff in Hle.
    rewrite Qabs_neg; [ring|].
    apply Qle_minus_iff. setoid_replace (0 + - (c1 - c2))%Q with (c2 + - c1)%Q using relation Qeq by ring.
    apply -> Qle_minus_iff. assumption.
  - rewrite Qabs_pos; [reflexivity|].
    destruct (Qlt_le_dec c2 c1) as [Hlt|Hle'].
    + apply Qlt_le_weak in Hlt. unfold Qminus. apply -> Qle_minus_iff. assumption.
    + apply Qle_bool_iff in Hle'. congruence.
Qed.

(** C5, the bound as stated: in binary64, [1 - 0.1] is rounded, and the
    combined confidence of [0.1] and [0.0] is [0.09999999999999998],
    below [max(0.1, 0.0)]. *)
Lemma choose_int_bound_fails_in_binary64 :
  in_unit_interval (f64_lit 1 10) /\
  in_unit_interval (S754_zero false) /\
  choose_int (VInt 13, f64_lit 1 10) (VInt 13, S754_zero false)
    = (VInt 13, below_one_tenth) /\
  num_ltb below_one_tenth (f64_lit 1 10) = true /\
  num_leb (num_max (f64_lit 1 10) (S754_zero false))
          (choose_int (VInt 13, f64_lit 1 10) (VInt 13, S754_zero false)).2
    = false.
Proof. vm_compute. auto. Qed.

(** C5, amended.  [choose_int ((v1,c1),(v2,c2))] returns
    [(v1, 1-(1-c1)*(1-c2))] when [v1 == v2]; for exact (rational)
    confidences in [0,1] that combined confidence is [>= max(c1,c2)];
    when [v1 != v2] it returns the value with the higher confidence,
    the new confidence being the higher one minus the lower one
    ([|c1-c2|] for rationals); when [c1 == c2] the second value wins,
    with a confidence equal to [0] for rationals and for finite floats. *)
Theorem choose_int_spec :
  (forall (C : Type) `(PyNum C) (v : value) (c1 c2 : C),
      choose_int (v, c1) (v, c2)
      = (v, num_sub num_one (num_mul (num_sub num_one c1) (num_sub num_one c2)))) /\
  (forall (v : value) (c1 c2 : Q),
      in_unit_interval c1 -> in_unit_interval c2 ->
      num_leb (num_max c1 c2) (choose_int (v, c1) (v, c2)).2 = true) /\
  (forall (C : Type) `(PyNumLaws C) (v1 v2 : value) (c1 c2 : C),
      v1 <> v2 ->
      (num_ltb c2 c1 = true -> choose_int (v1, c1) (v2, c2) = (v1, num_sub c1 c2)) /\
      (num_ltb c1 c2 = true -> choose_int (v1, c1) (v2, c2) = (v2, num_sub c2 c1)) /\
      (num_eqb c1 c2 = true -> choose_int (v1, c1) (v2, c2) = (v2, num_sub c2 c1))) /\
  (forall (v1 v2 : value) (c1 c2 : Q),
      v1 <> v2 -> ((choose_int (v1, c1) (v2, c2)).2 == Qabs (c1 - c2))%Q) /\
  (forall c1 c2 : Q,
      num_eqb c1 c2 = true -> num_eqb (num_sub c2 c1) num_zero = true) /\
  (forall c1 c2 : spec_float,
      f64_is_finite c1 = true -> num_eqb c1 c2 = true ->
      num_eqb (num_sub c2 c1) num_zero = true).
Proof.
  split; [|split; [|split; [|split; [|split]]]].
  - intros C HC v c1 c2. apply choose_int_equal.
  - intros v c1 c2 H1 H2. rewrite choose_int_equal.
    apply fraction_combined_prob_bound; assumption.
  - intros C HC HL v1 v2 c1 c2 Hv. split; [|split]; intros Hc.
    + apply choose_int_first; assumption.
    + apply choose_int_second; assumption.
    + apply choose_int_tie; assumption.
  - apply fraction_conflict_confidence.
  - intros c1 c2. apply fraction_sub_tie.
  - intros c1 c2. apply float_sub_tie.
Qed.

Lemma choose_int_spec_witness :
  choose_int (VInt 3, f64_lit 6 10) (VInt 3, f64_lit 4 10)
    = (VInt 3, f64_lit 76 100) /\
  num_leb (num_max (1 # 2) (1 # 4))%Q
          (choose_int (VInt 0, (1 # 2)%Q) (VInt 0, (1 # 4)%Q)).2 = true /\
  choose_int (VInt 1, f64_lit 6 10) (VInt 2, f64_lit 4 10)
    = (VInt 1, num_sub (f64_lit 6 10) (f64_lit 4 10)) /\
  choose_int (VInt 1, f64_lit 4 10) (VInt 2, f64_lit 6 10)
    = (VInt 2, num_sub (f64_lit 6 10) (f64_lit 4 10)) /\
  choose_int (VInt 1, f64_lit 5 10) (VInt 2, f64_lit 5 10)
    = (VInt 2, num_sub (f64_lit 5 10) (f64_lit 5 10)) /\
  ((choose_int (VInt 1, (1 # 4)%Q) (VInt 2, (1 # 2)%Q)).2 == Qabs ((1 # 4) - (1 # 2)))%Q /\
  num_eqb (num_sub (1 # 2)%Q (1 # 2)%Q) num_zero = true /\
  num_eqb (num_sub (f64_lit 5 10) (f64_lit 5 10)) num_zero = true.
Proof.
  destruct choose_int_spec as (Heq & Hbound & Hconf & Habs & HtieQ & HtieF).
  assert (Hne : VInt 1 <> VInt 2) by discriminate.
  destruct (Hconf spec_float _ _ (VInt 1) (VInt 2) (f64_lit 6 10) (f64_lit 4 10) Hne)
    as (Hfirst & _ & _).
  destruct (Hconf spec_float _ _ (VInt 1) (VInt 2) (f64_lit 4 10) (f64_lit 6 10) Hne)
    as (_ & Hsecond & _).
  destruct (Hconf spec_float _ _ (VInt 1) (VInt 2) (f64_lit 5 10) (f64_lit 5 10) Hne)
    as (_ & _ & Htie).
  refine (conj _ (conj _ (conj _ (conj _ (conj _ (conj _ (conj _ _))))))).
  - rewrite (Heq spec_float _). vm_compute. reflexivity.
  - apply Hbound; split; reflexivity.
  - apply Hfirst. vm_compute. reflexivity.
  - apply Hsecond. vm_compute. reflexivity.
  - apply Htie. vm_compute. reflexivity.
  - apply Habs. exact Hne.
  - apply HtieQ. reflexivity.
  - apply HtieF; vm_compute; reflexivity.
Defined.

(** ** Byte strings *)

#[local] Arguments String.append : simpl nomatch.

Lemma length_lower (s : string) : String.length (lower s) = String.length s.
Proof. induction s as [|c s IH]; simpl; congruence. Qed.

Lemma length_append (a b : string) :
  String.length (String.append a b) = String.length a + String.length b.
Proof. induction a as [|c a IH]; simpl; [reflexivity | rewrite IH; reflexivity]. Qed.

Lemma prefix_length (a b : string) :
  String.prefix a b = true ->
  String.length a <= String.length b /\
  (String.length a = String.length b -> a = b).
Proof.
  revert b. induction a as [|c a IH]; intros [|d b]; simpl; try discriminate.
  - auto.
  - intros _. split; [lia | discriminate].
  - destruct (Ascii.ascii_dec c d) as [->|]; [|discriminate].
    intros Hp. destruct (IH b Hp) as [Hle Heq].
    split; [lia|]. intros Hl. f_equal. apply Heq. lia.
Qed.

Lemma py_in_nil (sub : string) : py_in sub "" = String.prefix sub "" || false.
Proof. reflexivity. Qed.

Lemma py_in_cons (sub : string) (c : ascii) (s : string) :
  py_in sub (String c s) = String.prefix sub (String c s) || py_in sub s.
Proof. reflexivity. Qed.

Lemma py_in_length (sub s : string) :
  py_in sub s = true ->
  String.length sub <= String.length s /\
  (String.length sub = String.length s -> sub = s).
Proof.
  induction s as [|c s IH].
  - rewrite py_in_nil, orb_true_iff.
    intros [Hp|]; [|discriminate]. apply (prefix_length sub ""). exact Hp.
  - rewrite py_in_cons, orb_true_iff. intros [Hp|Hin].
    + apply (prefix_length sub (String c s)). exact Hp.
    + destruct (IH Hin) as [Hle _]. simpl. split; lia.
Qed.

Lemma prefix_spec (a b : string) :
  String.prefix a b = true <-> exists post, b = String.append a post.
Proof.
  revert b. induction a as [|c a IH]; intros [|d b]; simpl.
  - split; [intros _; exists ""; reflexivity | reflexivity].
  - split; [intros _; exists (String d b); reflexivity | reflexivity].
  - split; [discriminate | intros [post Hp]; discriminate].
  - destruct (Ascii.ascii_dec c d) as [->|Hne].
    + rewrite IH. split; intros [post Hp]; exists post; simpl in *; congruence.
    + split; [discriminate | intros [post Hp]; simpl in Hp; congruence].
Qed.

(** [py_in] is the substring test. *)
Lemma py_in_spec (sub s : string) :
  py_in sub s = true <->
  exists pre post, s = String.append pre (String.append sub post).
Proof.
  induction s as [|c s IH].
  - rewrite py_in_nil, orb_true_iff, prefix_spec. split.
    + intros [[post Hp]|]; [|discriminate]. exists "", post. exact Hp.
    + intros ([|d pre] & post & Hp); [|discriminate].
      left. exists post. exact Hp.
  - rewrite py_in_cons, orb_true_iff, prefix_spec, IH. split.
    + intros [[post Hp]|(pre & post & Hp)].
      * exists "", post. exact Hp.
      * exists (String c pre), post. simpl. congruence.
    + intros ([|d pre] & post & Hp).
      * left. exists post. exact Hp.
      * right. exists pre, post. simpl in Hp. congruence.
Qed.

Lemma lstrip_spec (s : string) :
  exists a, s = String.append a (lstrip s) /\ all_space a = true.
Proof.
  induction s as [|c s (a & Ha & Hs)]; simpl.
  - exists "". auto.
  - destruct (is_space c) eqn:Hc.
    + exists (String c a). simpl. rewrite Hc, Hs. split; [congruence | reflexivity].
    + exists "". auto.
Qed.

Lemma rstrip_spec (s : string) :
  exists b, s = String.append (rstrip s) b /\ all_space b = true.
Proof.
  induction s as [|c s (b & Hb & Hs)]; simpl.
  - exists "". auto.
  - destruct (rstrip s) as [|d r] eqn:Hr.
    + simpl in Hb. subst s. destruct (is_space c) eqn:Hc.
      * exists (String c b). simpl. rewrite Hc, Hs. auto.
      * exists b. auto.
    + exists b. split; [simpl in *; congruence | assumption].
Qed.

(** [strip s] is [s] without a whitespace prefix and a whitespace suffix. *)
Lemma strip_spec (s : string) :
  exists a b, s = String.append a (String.append (strip s) b) /\
              all_space a = true /\ all_space b = true.
Proof.
  destruct (lstrip_spec s) as (a & Ha & Hsa).
  destruct (rstrip_spec (lstrip s)) as (b & Hb & Hsb).
  exists a, b. unfold strip. rewrite <- Hb. auto.
Qed.

Lemma lstrip_start (s : string) : starts_with_space (lstrip s) = false.
Proof.
  induction s as [|c s IH]; simpl; [reflexivity|].
  destruct (is_space c) eqn:Hc; [exact IH | simpl; exact Hc].
Qed.

Lemma rstrip_start (s : string) :
  starts_with_space s = false -> starts_with_space (rstrip s) = false.
Proof.
  destruct s as [|c s]; simpl; [reflexivity|]. intros Hc.
  destruct (rstrip s); [rewrite Hc|]; simpl; [exact Hc | exact Hc].
Qed.

Lemma rstrip_end (s : string) : ends_with_space (rstrip s) = false.
Proof.
  induction s as [|c s IH]; simpl; [reflexivity|].
  destruct (rstrip s) as [|d r].
  - destruct (is_space c) eqn:Hc; simpl; [reflexivity | exact Hc].
  - exact IH.
Qed.

(** [strip s] neither starts nor ends with whitespace. *)
Lemma strip_ends (s : string) :
  starts_with_space (strip s) = false /\ ends_with_space (strip s) = false.
Proof.
  unfold strip. split; [apply rstrip_start, lstrip_start | apply rstrip_end].
Qed.

(** ** [choose_string] *)

Lemma the_prefix_neq (a b : string) :
  a = String.append "the " b -> String.eqb a b = false /\ String.eqb b a = false.
Proof.
  intros E. assert (Hl : String.length a = 4 + String.length b).
  { rewrite E. apply length_append. }
  split; apply String.eqb_neq; intros ->; lia.
Qed.

Lemma the_prefix_asym (a b : string) :
  a = String.append "the " b -> String.eqb b (String.append "the " a) = false.
Proof.
  intros E. apply String.eqb_neq. intros E'.
  assert (String.length a = 4 + String.length b) by (rewrite E; apply length_append).
  assert (String.length b = 4 + String.length a) by (rewrite E' at 1; apply length_append).
  lia.
Qed.

Section ChooseString.
Context {C : Type} `{PyNum C}.

Lemma choose_string_the_first (v1 v2 : string) (c1 c2 : C) :
  lower (strip v1) = String.append "the " (lower (strip v2)) ->
  choose_string (v1, c1) (v2, c2) = (strip v1, combined_prob c1 c2).
Proof.
  intros E. unfold choose_string.
  destruct (the_prefix_neq _ _ E) as [-> _].
  rewrite <- E, String.eqb_refl. reflexivity.
Qed.

Lemma choose_string_the_second (v1 v2 : string) (c1 c2 : C) :
  lower (strip v2) = String.append "the " (lower (strip v1)) ->
  choose_string (v1, c1) (v2, c2) = (strip v2, combined_prob c1 c2).
Proof.
  intros E. unfold choose_string.
  destruct (the_prefix_neq _ _ E) as [_ ->].
  rewrite (the_prefix_asym _ _ E).
  rewrite <- E, String.eqb_refl. reflexivity.
Qed.

Lemma choose_string_contains_second (v1 v2 : string) (c1 c2 : C) :
  lower (strip v1) <> lower (strip v2) ->
  lower (strip v1) <> String.append "the " (lower (strip v2)) ->
  lower (strip v2) <> String.append "the " (lower (strip v1)) ->
  py_in (lower (strip v2)) (lower (strip v1)) = true ->
  choose_string (v1, c1) (v2, c2) = (strip v2, combined_prob c1 c2) /\
  String.length (strip v2) < String.length (strip v1).
Proof.
  intros Hne H1 H2 Hin. unfold choose_string.
  apply String.eqb_neq in H1, H2. rewrite H1, H2, Hin.
  destruct (String.eqb_spec (lower (strip v1)) (lower (strip v2))) as [|_];
    [contradiction|].
  split; [reflexivity|].
  destruct (py_in_length _ _ Hin) as [Hle Heq].
  rewrite !length_lower in Hle, Heq.
  destruct (Nat.eq_dec (String.length (strip v2)) (String.length (strip v1)))
    as [Hl|Hl]; [|lia].
  exfalso. apply Hne. symmetry. apply Heq. exact Hl.
Qed.

Lemma choose_string_contains_first (v1 v2 : string) (c1 c2 : C) :
  lower (strip v1) <> lower (strip v2) ->
  lower (strip v1) <> String.append "the " (lower (strip v2)) ->
  lower (strip v2) <> String.append "the " (lower (strip v1)) ->
  py_in (lower (strip v1)) (lower (strip v2)) = true ->
  choose_string (v1, c1) (v2, c2) = (strip v1, combined_prob c1 c2) /\
  String.length (strip v1) < String.length (strip v2).
Proof.
  intros Hne H1 H2 Hin. unfold choose_string.
  apply String.eqb_neq in H1, H2. rewrite H1, H2, Hin.
  destruct (String.eqb_spec (lower (strip v1)) (lower (strip v2))) as [|_];
    [contradiction|].
  destruct (py_in_length _ _ Hin) as [Hle Heq].
  rewrite !length_lower in Hle, Heq.
  assert (Hlt : String.length (strip v1) < String.length (strip v2)).
  { destruct (Nat.eq_dec (String.length (strip v1)) (String.length (strip v2)))
      as [Hl|Hl]; [|lia].
    exfalso. apply Hne. apply Heq. exact Hl. }
  destruct (py_in (lower (strip v2)) (lower (strip v1))) eqn:Hin'.
  - apply py_in_length in Hin'. rewrite !length_lower in Hin'. lia.
  - auto.
Qed.

Lemma choose_string_value_cases (v1 v2 : string) (c1 c2 : C) :
  (choose_string (v1, c1) (v2, c2)).1 = strip v1 \/
  (choose_string (v1, c1) (v2, c2)).1 = strip v2.
Proof.
  unfold choose_string.
  repeat match goal with
         | |- context [if ?b then _ else _] => destruct b
         end; simpl; auto.
Qed.

End ChooseString.

(** C6.  The strings are compared in their trimmed, lower-cased forms.
    When the form of one string is ["the "] followed by that of the
    other, [choose_string] returns the variant with the prefix (the
    string as it was passed in, when it has no outer whitespace), with
    the combined probability; the rule comes before the substring rule,
    so that [("The Matrix", 0.5)] and [("Matrix", 0.5)] give
    [("The Matrix", 0.75)]; when instead one form is a proper substring
    of the other, the shorter string is returned with the combined
    probability. *)
Theorem choose_string_prefix_then_substring :
  (forall (C : Type) `(PyNum C) (v1 v2 : string) (c1 c2 : C),
      lower (strip v1) = String.append "the " (lower (strip v2)) ->
      choose_string (v1, c1) (v2, c2)
      = (strip v1,
         num_sub num_one (num_mul (num_sub num_one c1) (num_sub num_one c2)))) /\
  (forall (C : Type) `(PyNum C) (v1 v2 : string) (c1 c2 : C),
      lower (strip v2) = String.append "the " (lower (strip v1)) ->
      choose_string (v1, c1) (v2, c2)
      = (strip v2,
         num_sub num_one (num_mul (num_sub num_one c1) (num_sub num_one c2)))) /\
  (forall (C : Type) `(PyNum C) (v1 v2 : string) (c1 c2 : C),
      strip v1 = v1 -> strip v2 = v2 ->
      (lower v1 = String.append "the " (lower v2) ->
       choose_string (v1, c1) (v2, c2)
       = (v1, num_sub num_one (num_mul (num_sub num_one c1) (num_sub num_one c2)))) /\
      (lower v2 = String.append "the " (lower v1) ->
       choose_string (v1, c1) (v2, c2)
       = (v2, num_sub num_one (num_mul (num_sub num_one c1) (num_sub num_one c2))))) /\
  choose_string ("The Matrix", f64_lit 5 10) ("Matrix", f64_lit 5 10)
    = ("The Matrix", f64_lit 75 100) /\
  (forall (C : Type) `(PyNum C) (v1 v2 : string) (c1 c2 : C),
      lower (strip v1) <> lower (strip v2) ->
      lower (strip v1) <> String.append "the " (lower (strip v2)) ->
      lower (strip v2) <> String.append "the " (lower (strip v1)) ->
      (py_in (lower (strip v2)) (lower (strip v1)) = true ->
       choose_string (v1, c1) (v2, c2)
       = (strip v2,
          num_sub num_one (num_mul (num_sub num_one c1) (num_sub num_one c2))) /\
       String.length (strip v2) < String.length (strip v1)) /\
      (py_in (lower (strip v1)) (lower (strip v2)) = true ->
       choose_string (v1, c1) (v2, c2)
       = (strip v1,
          num_sub num_one (num_mul (num_sub num_one c1) (num_sub num_one c2))) /\
       String.length (strip v1) < String.length (strip v2))).
Proof.
  split; [|split; [|split; [|split]]].
  - intros C HC v1 v2 c1 c2. apply choose_string_the_first.
  - intros C HC v1 v2 c1 c2. apply choose_string_the_second.
  - intros C HC v1 v2 c1 c2 Hv1 Hv2. split; intros E.
    + rewrite <- Hv1 at 2. apply choose_string_the_first.
      rewrite Hv1, Hv2. exact E.
    + rewrite <- Hv2 at 2. apply choose_string_the_second.
      rewrite Hv1, Hv2. exact E.
  - vm_compute. reflexivity.
  - intros C HC v1 v2 c1 c2 Hne H1 H2. split; intros Hin.
    + apply choose_string_contains_second; assumption.
    + apply choose_string_contains_first; assumption.
Qed.

Lemma choose_string_prefix_then_substring_witness :
  choose_string (" The Thing", f64_lit 6 10) ("thing ", f64_lit 4 10)
    = ("The Thing", f64_lit 76 100) /\
  choose_string ("Matrix", f64_lit 5 10) ("THE MATRIX", f64_lit 5 10)
    = ("THE MATRIX", f64_lit 75 100) /\
  choose_string ("The Wire", f64_lit 5 10) ("wire", f64_lit 5 10)
    = ("The Wire", f64_lit 75 100) /\
  choose_string ("wire", f64_lit 5 10) ("The Wire", f64_lit 5 10)
    = ("The Wire", f64_lit 75 100) /\
  choose_string ("Aliens", f64_lit 4 10) ("Alien", f64_lit 6 10)
    = ("Alien", f64_lit 76 100) /\
  choose_string ("Alien", f64_lit 6 10) ("Aliens", f64_lit 4 10)
    = ("Alien", f64_lit 76 100).
Proof.
  destruct choose_string_prefix_then_substring as (H1 & H2 & Hraw & _ & H3).
  refine (conj _ (conj _ (conj _ (conj _ (conj _ _))))).
  - rewrite (H1 spec_float _); vm_compute; reflexivity.
  - rewrite (H2 spec_float _); vm_compute; reflexivity.
  - destruct (Hraw spec_float _ "The Wire" "wire" (f64_lit 5 10) (f64_lit 5 10))
      as [Hfirst _]; [reflexivity | reflexivity |].
    rewrite Hfirst; vm_compute; reflexivity.
  - destruct (Hraw spec_float _ "wire" "The Wire" (f64_lit 5 10) (f64_lit 5 10))
      as [_ Hsecond]; [reflexivity | reflexivity |].
    rewrite Hsecond; vm_compute; reflexivity.
  - assert (Ha : lower (strip "Aliens") <> lower (strip "Alien")) by (vm_compute; discriminate).
    assert (Hb : lower (strip "Aliens") <> String.append "the " (lower (strip "Alien")))
      by (vm_compute; discriminate).
    assert (Hc : lower (strip "Alien") <> String.append "the " (lower (strip "Aliens")))
      by (vm_compute; discriminate).
    destruct (H3 spec_float _ "Aliens" "Alien" (f64_lit 4 10) (f64_lit 6 10) Ha Hb Hc)
      as [Hin _].
    destruct Hin as [-> _]; vm_compute; reflexivity.
  - assert (Ha : lower (strip "Alien") <> lower (strip "Aliens")) by (vm_compute; discriminate).
    assert (Hb : lower (strip "Alien") <> String.append "the " (lower (strip "Aliens")))
      by (vm_compute; discriminate).
    assert (Hc : lower (strip "Aliens") <> String.append "the " (lower (strip "Alien")))
      by (vm_compute; discriminate).
    destruct (H3 spec_float _ "Alien" "Aliens" (f64_lit 6 10) (f64_lit 4 10) Ha Hb Hc)
      as [_ Hin].
    destruct Hin as [-> _]; vm_compute; reflexivity.
Defined.

(** C7 as stated: the winner of a conflict is returned trimmed, so it
    is neither of the two strings as they were passed in. *)
Lemma choose_string_returns_trimmed_value :
  (choose_string (" Alien ", f64_lit 6 10) ("Predator", f64_lit 4 10)).1 = "Alien" /\
  (choose_string (" Alien ", f64_lit 6 10) ("Predator", f64_lit 4 10)).1 <> " Alien " /\
  (choose_string (" Alien ", f64_lit 6 10) ("Predator", f64_lit 4 10)).1 <> "Predator".
Proof. vm_compute. repeat split; discriminate. Qed.

(** C7, amended.  [choose_string] lower-cases only for the comparison:
    the value it returns is one of the two input strings with its
    leading and trailing whitespace removed, in its original casing. *)
Theorem choose_string_value_is_trimmed_input :
  forall (C : Type) `(PyNum C) (v1 v2 : string) (c1 c2 : C),
    ((choose_string (v1, c1) (v2, c2)).1 = strip v1 \/
     (choose_string (v1, c1) (v2, c2)).1 = strip v2) /\
    starts_with_space (choose_string (v1, c1) (v2, c2)).1 = false /\
    ends_with_space (choose_string (v1, c1) (v2, c2)).1 = false /\
    exists a b : string,
      all_space a = true /\ all_space b = true /\
      (v1 = String.append a (String.append (choose_string (v1, c1) (v2, c2)).1 b) \/
       v2 = String.append a (String.append (choose_string (v1, c1) (v2, c2)).1 b)).
Proof.
  intros C HC v1 v2 c1 c2.
  pose proof (choose_string_value_cases v1 v2 c1 c2) as Hcases.
  split; [exact Hcases|].
  destruct Hcases as [-> | ->].
  - destruct (strip_spec v1) as (a & b & E & Ha & Hb).
    destruct (strip_ends v1) as [Hs He].
    split; [exact Hs|]. split; [exact He|]. exists a, b. auto.
  - destruct (strip_spec v2) as (a & b & E & Ha & Hb).
    destruct (strip_ends v2) as [Hs He].
    split; [exact Hs|]. split; [exact He|]. exists a, b. auto.
Qed.

(** ** The Guess record *)

Lemma elem_of_keys {V : Type} (d : gmap string V) (k : string) :
  k ∈ keys d <-> is_Some (d !! k).
Proof.
  unfold keys. rewrite list_elem_of_fmap. split.
  - intros ([k' v] & -> & Hin). apply elem_of_map_to_list in Hin. eauto.
  - intros [v Hv]. exists (k, v). split; [reflexivity|].
    apply elem_of_map_to_list. exact Hv.
Qed.

Lemma NoDup_keys {V : Type} (d : gmap string V) : NoDup (keys d).
Proof. apply NoDup_fst_map_to_list. Qed.

Lemma contains_key_true {V : Type} (d : gmap string V) (k : string) :
  contains_key d k = true <-> is_Some (d !! k).
Proof.
  unfold contains_key. destruct (d !! k); split; intros Hx;
    try reflexivity; try discriminate; eauto. destruct Hx; discriminate.
Qed.

Section GuessFacts.
Context {C : Type} `{PyNum C}.

Lemma foldl_insert_lookup (c : C) (l : list string) (m : gmap string C) (k : string) :
  foldl (fun conf prop => <[prop := c]> conf) m l !! k
  = if decide (k ∈ l) then Some c else m !! k.
Proof.
  revert m. induction l as [|x l IH]; intros m; cbn [foldl].
  - case_decide as Hin; [|reflexivity]. apply elem_of_nil in Hin. contradiction.
  - rewrite IH. destruct (decide (k ∈ l)) as [Hin|Hnin];
      destruct (decide (k ∈ x :: l)) as [Hin'|Hnin']; try reflexivity.
    + exfalso. apply Hnin'. right. exact Hin.
    + apply elem_of_cons in Hin'. destruct Hin' as [->|]; [|contradiction].
      apply lookup_insert_eq.
    + apply lookup_insert_ne. intros ->. apply Hnin'. left.
Qed.

Lemma Guess_init_confidence (d : gmap string value) (c : option C) (k : string) :
  _confidence (Guess_init d c) !! k
  = match d !! k with
    | Some _ => Some (match c with Some c => c | None => num_zero end)
    | None => None
    end.
Proof.
  unfold Guess_init. simpl. rewrite foldl_insert_lookup, lookup_empty.
  destruct (decide (k ∈ keys d)) as [Hin|Hnin].
  - apply elem_of_keys in Hin. destruct Hin as [v ->]. reflexivity.
  - destruct (d !! k) eqn:Hk; [|reflexivity].
    exfalso. apply Hnin, elem_of_keys. eauto.
Qed.

Lemma Guess_init_has_confidences (d : gmap string value) (c : option C) :
  has_confidences (Guess_init d c).
Proof.
  intros k [v Hv]. rewrite Guess_init_confidence. simpl in Hv. rewrite Hv. eauto.
Qed.

Lemma Guess_set_some_has_confidences (g : Guess C) (k : string) (v : value) (c : C) :
  has_confidences g -> has_confidences (Guess_set g k v (Some c)).
Proof.
  intros Hg k'. simpl. destruct (decide (k = k')) as [->|Hne].
  - rewrite !lookup_insert_eq. eauto.
  - rewrite !lookup_insert_ne by congruence. apply Hg.
Qed.

Lemma update_highest_confidence_step_ok (other self : Guess C) (x : string) :
  is_Some (items other !! x) -> is_Some (_confidence other !! x) ->
  (is_Some (items self !! x) -> is_Some (_confidence self !! x)) ->
  exists s1, update_highest_confidence_step other self x = Ok s1 /\
             forall k, at_key s1 k
                       = if decide (k = x) then highest_at self other x
                         else at_key self k.
Proof.
  intros [v Hv] [co Hco] Hself.
  unfold update_highest_confidence_step, highest_at, contains_key, getitem.
  rewrite Hv, Hco.
  destruct (items self !! x) as [vs|] eqn:Hvs.
  - destruct Hself as [cs Hcs]; [eauto|]. rewrite Hcs. simpl.
    destruct (num_leb co cs).
    + exists self. split; [reflexivity|]. intros k. unfold at_key.
      destruct (decide (k = x)) as [->|]; [rewrite Hvs, Hcs|]; reflexivity.
    + eexists. split; [reflexivity|]. intros k. unfold at_key. simpl.
      destruct (decide (k = x)) as [->|Hne].
      * rewrite !lookup_insert_eq. reflexivity.
      * rewrite !lookup_insert_ne by congruence. reflexivity.
  - simpl. eexists. split; [reflexivity|]. intros k. unfold at_key. simpl.
    destruct (decide (k = x)) as [->|Hne].
    + rewrite !lookup_insert_eq. destruct (_confidence self !! x); reflexivity.
    + rewrite !lookup_insert_ne by congruence. reflexivity.
Qed.

Lemma highest_at_ext (s t other : Guess C) (k : string) :
  at_key s k = at_key t k -> highest_at s other k = highest_at t other k.
Proof.
  unfold at_key, highest_at. intros E. injection E as -> ->. reflexivity.
Qed.

Lemma update_highest_confidence_loop (other : Guess C) (l : list string) :
  forall self : Guess C,
  NoDup l ->
  (forall k, k ∈ l -> is_Some (items other !! k) /\ is_Some (_confidence other !! k)) ->
  (forall k, k ∈ l -> is_Some (items self !! k) -> is_Some (_confidence self !! k)) ->
  exists s', for_each (update_highest_confidence_step other) self l = Ok s' /\
             forall k, at_key s' k
                       = if decide (k ∈ l) then highest_at self other k
                         else at_key self k.
Proof.
  induction l as [|x l IH]; intros self Hnd Hother Hself.
  - exists self. split; [reflexivity|]. intros k.
    rewrite decide_False; [reflexivity | apply not_elem_of_nil].
  - assert (Hx : x ∉ l) by (apply NoDup_cons_1_1; exact Hnd).
    assert (Hnd' : NoDup l) by (apply NoDup_cons_1_2 in Hnd; exact Hnd).
    destruct (Hother x) as [Hxv Hxc]; [left|].
    destruct (update_highest_confidence_step_ok other self x Hxv Hxc) as (s1 & Hs1 & Hat1).
    { apply Hself. left. }
    assert (Hsame : forall k, k ∈ l -> at_key s1 k = at_key self k).
    { intros k Hk. rewrite Hat1. rewrite decide_False; [reflexivity|].
      intros ->. contradiction. }
    destruct (IH s1 Hnd') as (s' & Hs' & Hat').
    { intros k Hk. apply Hother. right. exact Hk. }
    { intros k Hk. specialize (Hsame k Hk). unfold at_key in Hsame.
      injection Hsame as -> ->. apply Hself. right. exact Hk. }
    exists s'. split.
    { simpl. rewrite Hs1. exact Hs'. }
    intros k. rewrite Hat'. destruct (decide (k ∈ l)) as [Hk|Hk].
    + rewrite decide_True by (right; exact Hk).
      apply highest_at_ext. apply Hsame. exact Hk.
    + rewrite Hat1. destruct (decide (k = x)) as [->|Hne].
      * rewrite decide_True by left. reflexivity.
      * rewrite decide_False; [reflexivity|].
        intros Hin. apply elem_of_cons in Hin. tauto.
Qed.

Lemma update_highest_confidence_at (self other : Guess C) :
  has_confidences self -> has_confidences other ->
  exists s', Guess_update_highest_confidence self other = Ok s' /\
             forall k, at_key s' k = highest_at self other k.
Proof.
  intros Hself Hother.
  destruct (update_highest_confidence_loop other (keys (items other)) self)
    as (s' & Hs' & Hat).
  - apply NoDup_keys.
  - intros k Hk. apply elem_of_keys in Hk. split; [exact Hk | apply Hother, Hk].
  - intros k _. apply Hself.
  - exists s'. split; [exact Hs'|]. intros k. rewrite Hat.
    destruct (decide (k ∈ keys (items other))) as [Hk|Hk]; [reflexivity|].
    unfold highest_at. destruct (items other !! k) eqn:Hv; [|reflexivity].
    exfalso. apply Hk, elem_of_keys. eauto.
Qed.

Lemma update_highest_confidence_has_confidences (self other s' : Guess C) :
  has_confidences self -> has_confidences other ->
  Guess_update_highest_confidence self other = Ok s' -> has_confidences s'.
Proof.
  intros Hself Hother Hs'.
  destruct (update_highest_confidence_at self other Hself Hother) as (s & Hs & Hat).
  rewrite Hs in Hs'. injection Hs' as <-.
  intros k Hk. specialize (Hat k). unfold at_key, highest_at in Hat.
  specialize (Hself k). specialize (Hother k).
  destruct (items other !! k) as [v|].
  - destruct Hother as [co Hco]; [eauto|]. rewrite Hco in Hat.
    destruct (items self !! k) as [vs|], (_confidence self !! k) as [cs|];
      try destruct (num_leb co cs); injection Hat as _ ->; eauto.
  - assert (E : (items s !! k, _confidence s !! k)
                = (items self !! k, _confidence self !! k))
      by (rewrite Hat; destruct (_confidence other !! k); reflexivity).
    injection E as E1 E2. rewrite E2. apply Hself. rewrite <- E1. exact Hk.
Qed.

End GuessFacts.

(** C8.  For guesses that have a confidence for each of their
    properties, [self.update_highest_confidence(other)] returns
    normally and, for each key of [other]: if [self] already has the key
    with a confidence [>=] the one of [other], the value and the
    confidence of [self] for that key are unchanged, in particular on an
    exact tie; otherwise [self] adopts the value and the confidence of
    [other].  Keys that [other] does not have are left as they were. *)
Theorem update_highest_confidence_spec :
  forall (C : Type) `(PyNumLaws C) (self other : Guess C),
    has_confidences self -> has_confidences other ->
    exists self' : Guess C,
      Guess_update_highest_confidence self other = Ok self' /\
      (forall (k : string) (v : value) (co : C),
          items other !! k = Some v -> _confidence other !! k = Some co ->
          (forall (vs : value) (cs : C),
              items self !! k = Some vs -> _confidence self !! k = Some cs ->
              (num_leb co cs = true -> at_key self' k = (Some vs, Some cs)) /\
              (num_eqb cs co = true -> at_key self' k = (Some vs, Some cs)) /\
              (num_leb co cs = false -> at_key self' k = (Some v, Some co))) /\
          (items self !! k = None -> at_key self' k = (Some v, Some co))) /\
      (forall k : string,
          items other !! k = None -> at_key self' k = at_key self k).
Proof.
  intros C HC HL self other Hself Hother.
  destruct (update_highest_confidence_at self other Hself Hother) as (s' & Hs' & Hat).
  exists s'. split; [exact Hs'|]. split.
  - intros k v co Hv Hco. split.
    + intros vs cs Hvs Hcs.
      assert (E : at_key s' k
                  = if num_leb co cs then (Some vs, Some cs) else (Some v, Some co)).
      { rewrite Hat. unfold highest_at. rewrite Hv, Hco, Hvs, Hcs. reflexivity. }
      split; [|split]; intros Hc.
      * rewrite E, Hc. reflexivity.
      * apply num_eqb_leb in Hc. rewrite E, Hc. reflexivity.
      * rewrite E, Hc. reflexivity.
    + intros Hvs. rewrite Hat. unfold highest_at. rewrite Hv, Hco, Hvs. reflexivity.
  - intros k Hv. rewrite Hat. unfold highest_at. rewrite Hv. reflexivity.
Qed.

Lemma update_highest_confidence_spec_witness :
  exists self' : Guess spec_float,
    Guess_update_highest_confidence
      (guess_of [("season", VInt 1); ("title", VStr "Dexter")] (f64_lit 5 10))
      (guess_of [("season", VInt 2); ("year", VInt 2006)] (f64_lit 5 10))
    = Ok self' /\
    at_key self' "season" = (Some (VInt 1), Some (f64_lit 5 10)) /\
    at_key self' "year" = (Some (VInt 2006), Some (f64_lit 5 10)) /\
    at_key self' "title" = (Some (VStr "Dexter"), Some (f64_lit 5 10)).
Proof.
  destruct (@update_highest_confidence_spec spec_float _ _
              (guess_of [("season", VInt 1); ("title", VStr "Dexter")] (f64_lit 5 10))
              (guess_of [("season", VInt 2); ("year", VInt 2006)] (f64_lit 5 10)))
    as (self' & Hrun & Hkeys & Hrest).
  - apply Guess_init_has_confidences.
  - apply Guess_init_has_confidences.
  - exists self'. split; [exact Hrun|].
    refine (conj _ (conj _ _)).
    + destruct (Hkeys "season" (VInt 2) (f64_lit 5 10)) as [Hboth _];
        [reflexivity | reflexivity |].
      destruct (Hboth (VInt 1) (f64_lit 5 10)) as (_ & Htie & _);
        [reflexivity | reflexivity |].
      apply Htie. reflexivity.
    + destruct (Hkeys "year" (VInt 2006) (f64_lit 5 10)) as [_ Hnew];
        [reflexivity | reflexivity |].
      apply Hnew. reflexivity.
    + rewrite (Hrest "title"); reflexivity.
Defined.

(** C9, at the failing input: a property set without a confidence on a
    guess that did not have it gets no confidence entry, and asking
    for its confidence raises [KeyError]. *)
Theorem set_without_confidence_has_no_confidence :
  forall (C : Type) `(PyNum C) (d : gmap string value) (c : option C)
         (k : string) (v : value),
    d !! k = None ->
    items (Guess_set (Guess_init d c) k v None) !! k = Some v /\
    Guess_confidence (Guess_set (Guess_init d c) k v None) k = Raise KeyError.
Proof.
  intros C HC d c k v Hk. split.
  - simpl. apply lookup_insert_eq.
  - unfold Guess_confidence, getitem, Guess_set, Guess_setitem.
    cbn [_confidence]. rewrite Guess_init_confidence, Hk. reflexivity.
Qed.

Lemma set_without_confidence_has_no_confidence_witness :
  items (Guess_set (Guess_init (C := spec_float) ∅ None) "season" (VInt 2) None)
    !! "season" = Some (VInt 2) /\
  Guess_confidence (Guess_set (Guess_init (C := spec_float) ∅ None) "season" (VInt 2) None)
    "season" = Raise KeyError.
Proof.
  apply (@set_without_confidence_has_no_confidence spec_float _ ∅ None "season" (VInt 2)).
  reflexivity.
Defined.

(** C10 as stated: the property pruned by [merge_all] is absent from
    the returned guess, and its confidence is still returned. *)
Lemma confidence_of_pruned_property :
  (r ← pruned_example;
   Ok (at_key r "season", items r !! "episodeNumber",
       Guess_confidence r "episodeNumber"))
  = Ok ((Some (VInt 1), Some (f64_lit 2 10)), None, Ok (f64_lit 2 100)).
Proof. vm_compute. reflexivity. Qed.

(** C10, amended.  [g.confidence(k)] raises [KeyError] exactly when [k]
    has no entry in the confidence mapping of [g].  For a guess as the
    constructor builds it, that is exactly when [k] is absent from its
    values; deleting a property keeps its confidence entry, and
    [confidence] still returns it afterwards. *)
Theorem confidence_raises_iff_no_entry :
  forall (C : Type) `(PyNum C),
    (forall (g : Guess C) (k : string),
        Guess_confidence g k = Raise KeyError <-> _confidence g !! k = None) /\
    (forall (d : gmap string value) (c : option C) (k : string),
        Guess_confidence (Guess_init d c) k = Raise KeyError <-> d !! k = None) /\
    (forall (g g' : Guess C) (k : string) (c : C),
        _confidence g !! k = Some c -> Guess_delitem g k = Ok g' ->
        items g' !! k = None /\ Guess_confidence g' k = Ok c).
Proof.
  intros C HC. split; [|split].
  - intros g k. unfold Guess_confidence, getitem.
    destruct (_confidence g !! k); split; congruence.
  - intros d c k. unfold Guess_confidence, getitem.
    rewrite Guess_init_confidence. destruct (d !! k); split; congruence.
  - intros g g' k c Hc. unfold Guess_delitem.
    destruct (contains_key (items g) k); [|discriminate].
    intros E. injection E as <-. split.
    + apply lookup_delete_eq.
    + unfold Guess_confidence, getitem. simpl. rewrite Hc. reflexivity.
Qed.

Lemma confidence_raises_iff_no_entry_witness :
  Guess_confidence (guess_of [("season", VInt 1)] (f64_lit 2 10)) "year"
    = Raise KeyError /\
  (forall g',
      Guess_delitem (guess_of [("season", VInt 1)] (f64_lit 2 10)) "season" = Ok g' ->
      items g' !! "season" = None /\
      Guess_confidence g' "season" = Ok (f64_lit 2 10)).
Proof.
  destruct (@confidence_raises_iff_no_entry spec_float _) as (_ & Hinit & Hdel).
  split.
  - apply Hinit. reflexivity.
  - intros g'. apply Hdel. reflexivity.
Defined.

(** ** Pairwise merge *)

Section PairwiseFacts.
Context {C : Type} {num : PyNum C}.

Lemma common_props_two (a b : Guess C) (k1 k2 : string) :
  k1 <> k2 ->
  is_Some (items a !! k1) -> is_Some (items a !! k2) ->
  is_Some (items b !! k1) -> is_Some (items b !! k2) ->
  1 < common_props a b.
Proof.
  intros Hne Ha1 Ha2 Hb1 Hb2. unfold common_props.
  apply elem_of_dom in Ha1. apply elem_of_dom in Ha2.
  apply elem_of_dom in Hb1. apply elem_of_dom in Hb2.
  assert (Hsub : ({[k1]} ∪ {[k2]} : gset string)
                   ⊆ dom (items a) ∩ dom (items b)).
  { intros k Hk. apply elem_of_intersection.
    apply elem_of_union in Hk. destruct Hk as [Hk|Hk];
      apply elem_of_singleton in Hk; subst k; split; assumption. }
  apply subseteq_size in Hsub.
  rewrite size_union in Hsub
    by (apply disjoint_singleton_l, not_elem_of_singleton; exact Hne).
  rewrite !size_singleton in Hsub. lia.
Qed.

Lemma nocheck_ambiguous
    (choose : value * C -> value * C -> outcome (value * C))
    (prop : string) (st : state C) (g1 g2 : ref) (rest : list ref) :
  similar_guesses (heap st) prop (guesses st) = g1 :: g2 :: rest ->
  1 < common_props (heap st g1) (heap st g2) ->
  _merge_similar_guesses_nocheck choose prop st = Ok st.
Proof.
  intros Hsim Hcommon. unfold _merge_similar_guesses_nocheck.
  rewrite Hsim. simpl.
  apply Nat.ltb_lt in Hcommon. rewrite Hcommon. reflexivity.
Qed.

(** With three or more guesses carrying the property and the first two
    sharing more than one property, each call leaves the list as it was
    and calls itself again: no depth is enough. *)
Lemma merge_similar_guesses_ambiguous
    (choose : value * C -> value * C -> outcome (value * C))
    (prop : string) (st : state C) (g1 g2 g3 : ref) (rest : list ref) :
  similar_guesses (heap st) prop (guesses st) = g1 :: g2 :: g3 :: rest ->
  1 < common_props (heap st g1) (heap st g2) ->
  forall fuel : nat, merge_similar_guesses fuel choose prop st = None.
Proof.
  intros Hsim Hcommon fuel. induction fuel as [|fuel IH]; [reflexivity|].
  cbn [merge_similar_guesses]. rewrite Hsim. cbn [length Nat.ltb Nat.leb Nat.eqb].
  rewrite (nocheck_ambiguous choose prop st g1 g2 (g3 :: rest) Hsim Hcommon).
  exact IH.
Qed.

End PairwiseFacts.

(** C4.  When the first two guesses carrying [prop] share two distinct
    properties, [_merge_similar_guesses_nocheck] returns normally and
    the store and the list are exactly what they were. *)
Theorem nocheck_ambiguous_unchanged :
  forall (C : Type) `(PyNum C)
         (choose : value * C -> value * C -> outcome (value * C))
         (prop : string) (st : state C) (g1 g2 : ref) (rest : list ref)
         (k1 k2 : string),
    similar_guesses (heap st) prop (guesses st) = g1 :: g2 :: rest ->
    k1 <> k2 ->
    is_Some (items (heap st g1) !! k1) -> is_Some (items (heap st g1) !! k2) ->
    is_Some (items (heap st g2) !! k1) -> is_Some (items (heap st g2) !! k2) ->
    _merge_similar_guesses_nocheck choose prop st = Ok st.
Proof.
  intros C HC choose prop st g1 g2 rest k1 k2 Hsim Hne H11 H12 H21 H22.
  apply (nocheck_ambiguous choose prop st g1 g2 rest Hsim).
  apply (common_props_two _ _ k1 k2); assumption.
Qed.

Lemma nocheck_ambiguous_unchanged_witness :
  _merge_similar_guesses_nocheck choose_int_value "season" ambiguous_state
  = Ok ambiguous_state.
Proof.
  apply (@nocheck_ambiguous_unchanged spec_float _ choose_int_value "season"
           ambiguous_state 0 1 [2] "season" "episodeNumber").
  - reflexivity.
  - discriminate.
  - vm_compute. eauto.
  - vm_compute. eauto.
  - vm_compute. eauto.
  - vm_compute. eauto.
Defined.

(** C3, at the failing inputs: with more than two guesses carrying the
    property, of which the first two share two distinct properties, the
    pairwise step changes nothing and the recursion of
    [merge_similar_guesses] never reaches its base case, whatever the
    depth allowed. *)
Theorem merge_similar_guesses_never_returns :
  forall (C : Type) `(PyNum C)
         (choose : value * C -> value * C -> outcome (value * C))
         (prop : string) (st : state C) (g1 g2 g3 : ref) (rest : list ref)
         (k1 k2 : string),
    similar_guesses (heap st) prop (guesses st) = g1 :: g2 :: g3 :: rest ->
    k1 <> k2 ->
    is_Some (items (heap st g1) !! k1) -> is_Some (items (heap st g1) !! k2) ->
    is_Some (items (heap st g2) !! k1) -> is_Some (items (heap st g2) !! k2) ->
    forall fuel : nat, merge_similar_guesses fuel choose prop st = None.
Proof.
  intros C HC choose prop st g1 g2 g3 rest k1 k2 Hsim Hne H11 H12 H21 H22.
  apply (merge_similar_guesses_ambiguous choose prop st g1 g2 g3 rest Hsim).
  apply (common_props_two _ _ k1 k2); assumption.
Qed.

(** The depth [1000] is the default recursion limit of CPython. *)
Lemma merge_similar_guesses_never_returns_witness :
  merge_similar_guesses 1000 choose_int_value "season" ambiguous_state = None.
Proof.
  apply (@merge_similar_guesses_never_returns spec_float _ choose_int_value
           "season" ambiguous_state 0 1 2 [] "season" "episodeNumber").
  - reflexivity.
  - discriminate.
  - vm_compute. eauto.
  - vm_compute. eauto.
  - vm_compute. eauto.
  - vm_compute. eauto.
Defined.

(** On three guesses of which no two share another property, two
    pairwise steps leave one guess: the seasons [1] (0.8) and [1] (0.5)
    combine to [1] with confidence [0.9], which beats [2] (0.3) and is
    left with the confidence [0.9 - 0.3]. *)
Lemma merge_similar_guesses_three_way :
  (o ← merge_similar_guesses 2 choose_int_value "season" three_seasons_state;
   Some (st ← o; Ok (guesses st, at_key (heap st 0) "season",
                     at_key (heap st 0) "episodeNumber")))
  = Some (Ok ([0],
              (Some (VInt 1),
               Some (num_sub (combined_prob (f64_lit 8 10) (f64_lit 5 10))
                             (f64_lit 3 10))),
              (Some (VInt 2), Some (f64_lit 8 10)))).
Proof. vm_compute. reflexivity. Qed.

(** ** Append merge *)

Section AppendFacts.
Context {C : Type} {num : PyNum C}.

Lemma similar_guesses_carry (h : ref -> Guess C) (prop : string) (l : list ref)
    (g : ref) :
  In g (similar_guesses h prop l) -> is_Some (items (h g) !! prop).
Proof.
  unfold similar_guesses. rewrite filter_In. intros [_ Hg].
  apply contains_key_true. exact Hg.
Qed.

(** The message of the warning has one conversion specifier and is
    given two arguments. *)
Lemma percent_format_overwriting (p : string) (v : value) :
  percent_format overwriting_fmt [VStr p; v] = Raise TypeError.
Proof. reflexivity. Qed.

Lemma merge_append_step_other (prop : string) (merged m : ref)
    (h : ref -> Guess C) (prop2 : string) :
  prop2 <> prop -> is_Some (items (h m) !! prop2) ->
  merge_append_step prop merged m h prop2 = Raise TypeError.
Proof.
  intros Hne [v Hv]. unfold merge_append_step.
  destruct (String.eqb_spec prop prop2) as [->|_]; [contradiction|].
  unfold contains_key, getitem. rewrite Hv. cbn [mbind outcome_bind].
  rewrite percent_format_overwriting. reflexivity.
Qed.

Lemma merge_append_step_same (prop : string) (merged m : ref)
    (h : ref -> Guess C) (xs : list value) (x : value) :
  items (h merged) !! prop = Some (VList xs) ->
  items (h m) !! prop = Some x ->
  merge_append_step prop merged m h prop
  = Ok (<[merged := Guess_setitem (h merged) prop (VList (xs ++ [x]))]> h).
Proof.
  intros Hxs Hx. unfold merge_append_step.
  rewrite String.eqb_refl. unfold getitem. rewrite Hxs, Hx. reflexivity.
Qed.

Lemma merge_append_loop_raises (prop : string) (merged m : ref) (l : list string) :
  merged <> m ->
  forall h : ref -> Guess C,
    (exists xs, items (h merged) !! prop = Some (VList xs)) ->
    is_Some (items (h m) !! prop) ->
    (forall k, In k l -> is_Some (items (h m) !! k)) ->
    (exists prop2, In prop2 l /\ prop2 <> prop) ->
    for_each (merge_append_step prop merged m) h l = Raise TypeError.
Proof.
  intros Hm. induction l as [|k l IH]; intros h Hxs Hx Hkeys (prop2 & Hin & Hne).
  - destruct Hin.
  - cbn [for_each]. destruct (String.eqb_spec k prop) as [->|Hk].
    + destruct Hxs as [xs Hxs]. destruct Hx as [x Hx].
      rewrite (merge_append_step_same prop merged m h xs x Hxs Hx).
      cbn [mbind outcome_bind].
      apply IH.
      * exists (xs ++ [x]). rewrite fn_lookup_insert. simpl.
        apply lookup_insert_eq.
      * rewrite fn_lookup_insert_ne by exact Hm. eauto.
      * intros k Hk. rewrite fn_lookup_insert_ne by exact Hm.
        apply Hkeys. right. exact Hk.
      * exists prop2. split; [|exact Hne].
        destruct Hin as [<-|Hin]; [contradiction | exact Hin].
    + rewrite merge_append_step_other; [reflexivity | exact Hk |].
      apply Hkeys. left. reflexivity.
Qed.

End AppendFacts.

(** C2, at the failing inputs: when the second guess carrying [prop]
    is another object than the first and carries another property,
    building the warning raises [TypeError] and [merge_append_guesses]
    does not complete. *)
Theorem merge_append_guesses_raises :
  forall (C : Type) `(PyNum C) (prop : string) (st : state C)
         (merged m : ref) (rest : list ref) (prop2 : string),
    similar_guesses (heap st) prop (guesses st) = merged :: m :: rest ->
    merged <> m ->
    prop2 <> prop -> is_Some (items (heap st m) !! prop2) ->
    merge_append_guesses prop st = Raise TypeError.
Proof.
  intros C HC prop st merged m rest prop2 Hsim Hm Hne Hprop2.
  assert (Hmerged : is_Some (items (heap st merged) !! prop)).
  { apply (similar_guesses_carry _ _ (guesses st)). rewrite Hsim. left. reflexivity. }
  assert (Hmprop : is_Some (items (heap st m) !! prop)).
  { apply (similar_guesses_carry _ _ (guesses st)). rewrite Hsim.
    right. left. reflexivity. }
  unfold merge_append_guesses. rewrite Hsim.
  destruct Hmerged as [v Hv]. unfold getitem at 1. rewrite Hv.
  cbn [mbind outcome_bind for_each heap].
  rewrite fn_lookup_insert_ne by exact Hm.
  rewrite (merge_append_loop_raises prop merged m); [reflexivity | exact Hm | | | |].
  - exists [v]. rewrite fn_lookup_insert. simpl. apply lookup_insert_eq.
  - rewrite fn_lookup_insert_ne by exact Hm. exact Hmprop.
  - intros k Hk. rewrite fn_lookup_insert_ne by exact Hm.
    apply elem_of_keys, list_elem_of_In. exact Hk.
  - exists prop2. split; [|exact Hne].
    apply list_elem_of_In, elem_of_keys. exact Hprop2.
Qed.

Lemma merge_append_guesses_raises_witness :
  merge_append_guesses "language" append_state = Raise TypeError.
Proof.
  apply (@merge_append_guesses_raises spec_float _ "language" append_state
           0 1 [] "title").
  - reflexivity.
  - discriminate.
  - discriminate.
  - vm_compute. eauto.
Defined.

(** When the other guesses carry nothing but the property, their
    values are appended and they leave the list. *)
Lemma merge_append_guesses_languages :
  (st ← merge_append_guesses "language" languages_state;
   Ok (guesses st, at_key (heap st 0) "language"))
  = Ok ([0], (Some (VList [VStr "en"; VStr "fr"]), Some (f64_lit 8 10))).
Proof. vm_compute. reflexivity. Qed.

(** ** Final reduction *)

Lemma py_add_scalar_list (v : value) (l : list value) :
  (forall xs, v <> VList xs) -> py_add v (VList l) = Raise TypeError.
Proof.
  intros Hv. destruct v as [n|s|xs]; try reflexivity.
  exfalso. apply (Hv xs). reflexivity.
Qed.

Lemma merge_all_append_step_raises {C : Type} {num : PyNum C}
    (h : ref -> Guess C) (result g : ref) (prop : string) (v x : value) :
  items (h result) !! prop = Some v -> (forall xs, v <> VList xs) ->
  items (h g) !! prop = Some x ->
  merge_all_append_step result g h prop = Raise TypeError.
Proof.
  intros Hv Hscalar Hx. unfold merge_all_append_step, contains_key, getitem.
  rewrite Hx, Hv. cbn [mbind outcome_bind].
  rewrite (py_add_scalar_list v [x] Hscalar). reflexivity.
Qed.

Lemma merge_all_step_raises {C : Type} {num : PyNum C}
    (h : ref -> Guess C) (result g : ref) (prop : string)
    (append : list string) (v x : value) :
  items (h result) !! prop = Some v -> (forall xs, v <> VList xs) ->
  items (h g) !! prop = Some x ->
  merge_all_step (prop :: append) result h g = Raise TypeError.
Proof.
  intros Hv Hscalar Hx. unfold merge_all_step. cbn [for_each].
  rewrite (merge_all_append_step_raises h result g prop v x Hv Hscalar Hx).
  reflexivity.
Qed.

(** The pruning loop leaves a property as it was or deletes it. *)
Lemma merge_all_prune_step_keeps_or_deletes {C : Type} {num : PyNum C}
    (result : ref) (prop p : string) (h h1 : ref -> Guess C) :
  merge_all_prune_step result h p = Ok h1 ->
  items (h1 result) !! prop = items (h result) !! prop \/
  items (h1 result) !! prop = None.
Proof.
  unfold merge_all_prune_step.
  destruct (Guess_confidence (h result) p) as [c|e];
    cbn [mbind outcome_bind]; [|intros E; discriminate E].
  destruct (num_ltb c num_0_05).
  - unfold Guess_delitem.
    destruct (contains_key (items (h result)) p);
      cbn [mbind outcome_bind]; [|intros E; discriminate E].
    intros E. injection E as <-. rewrite fn_lookup_insert. cbn [items].
    destruct (decide (p = prop)) as [->|Hne].
    + right. apply lookup_delete_eq.
    + left. apply lookup_delete_ne. exact Hne.
  - intros E. injection E as <-. left. reflexivity.
Qed.

Lemma merge_all_prune_keeps_or_deletes {C : Type} {num : PyNum C}
    (result : ref) (prop : string) (l : list string) :
  forall h h' : ref -> Guess C,
    for_each (merge_all_prune_step result) h l = Ok h' ->
    items (h' result) !! prop = items (h result) !! prop \/
    items (h' result) !! prop = None.
Proof.
  induction l as [|p l IH]; intros h h'; cbn [for_each].
  - intros E. injection E as <-. left. reflexivity.
  - destruct (merge_all_prune_step result h p) as [h1|e] eqn:Hstep;
      cbn [mbind outcome_bind]; [|intros E; discriminate E].
    intros E. apply IH in E.
    apply (merge_all_prune_step_keeps_or_deletes result prop) in Hstep.
    destruct E as [E|E]; [|right; exact E].
    rewrite E. exact Hstep.
Qed.

Lemma merge_all_single_integer {C : Type} {num : PyNum C}
    (h h' : ref -> Guess C) (result : ref) (prop : string) (n : Z) (r : Guess C) :
  items (h result) !! prop = Some (VInt n) ->
  merge_all h [result] [prop] = Ok (h', r) ->
  items r !! prop = None.
Proof.
  intros Hv. unfold merge_all. cbn [for_each mbind outcome_bind].
  destruct (for_each (merge_all_prune_step result) h (keys (items (h result))))
    as [h2|e] eqn:Hprune; cbn [mbind outcome_bind]; [|intros E; discriminate E].
  apply (merge_all_prune_keeps_or_deletes result prop) in Hprune.
  unfold merge_all_unique_step, contains_key, getitem.
  destruct Hprune as [Hkept|Hgone].
  - rewrite Hkept, Hv. cbn [mbind outcome_bind py_list_set]. intros E. discriminate E.
  - rewrite Hgone. cbn [mbind outcome_bind]. intros E. injection E as _ <-.
    exact Hgone.
Qed.

(** C1, at the failing inputs: when the first guess of the list carries
    the appended property with a value that is not a list, appending
    the value of the next guess that carries it adds a list to that
    value and raises [TypeError]; with a single guess carrying an
    integer, the final [list(set(...))] raises [TypeError] unless the
    property was pruned, so that a guess that is returned never has the
    property.  When the first guess does not carry the property, the
    values are collected. *)
Theorem merge_all_append_first_guess_raises :
  (forall (C : Type) `(PyNum C) (h : ref -> Guess C) (result g : ref)
          (rest : list ref) (prop : string) (append : list string)
          (v x : value),
      items (h result) !! prop = Some v -> (forall xs, v <> VList xs) ->
      items (h g) !! prop = Some x ->
      merge_all h (result :: g :: rest) (prop :: append) = Raise TypeError) /\
  (forall (C : Type) `(PyNum C) (h h' : ref -> Guess C) (result : ref)
          (prop : string) (n : Z) (r : Guess C),
      items (h result) !! prop = Some (VInt n) ->
      merge_all h [result] [prop] = Ok (h', r) ->
      items r !! prop = None) /\
  single_episode = Raise TypeError /\
  two_episodes = Raise TypeError /\
  episodes_after_season
  = Ok (mkGuess
          (list_to_map [("season", VInt 1);
                        ("episodeNumber", VList [VInt 1; VInt 2]);
                        ("year", VInt 2006)])
          (list_to_map [("season", f64_lit 8 10);
                        ("episodeNumber", f64_lit 7 10);
                        ("year", f64_lit 6 10)])).
Proof.
  split; [|split; [|split; [|split]]].
  - intros C HC h result g rest prop append v x Hv Hscalar Hx.
    unfold merge_all. cbn [for_each].
    rewrite (merge_all_step_raises h result g prop append v x Hv Hscalar Hx).
    reflexivity.
  - intros C HC h h' result prop n r. apply merge_all_single_integer.
  - vm_compute. reflexivity.
  - vm_compute. reflexivity.
  - vm_compute. reflexivity.
Qed.

Lemma merge_all_append_first_guess_raises_witness :
  merge_all (store_of [guess_of [("episodeNumber", VInt 1)] (f64_lit 8 10);
                       guess_of [("episodeNumber", VInt 2)] (f64_lit 8 10)])
            [0; 1] ["episodeNumber"]
  = Raise TypeError /\
  match merge_all unlikely_episode_store [0] ["episodeNumber"] with
  | Ok (_, r) => items r !! "episodeNumber" = None
  | Raise _ => False
  end.
Proof.
  destruct merge_all_append_first_guess_raises as (Hgen & Hsingle & _).
  split.
  - apply (Hgen spec_float _ _ 0 1 [] "episodeNumber" [] (VInt 1) (VInt 2)).
    + reflexivity.
    + discriminate.
    + reflexivity.
  - destruct (merge_all unlikely_episode_store [0] ["episodeNumber"])
      as [[h' r]|e] eqn:E.
    + apply (Hsingle spec_float _ unlikely_episode_store h' 0 "episodeNumber" 27%Z r).
      * reflexivity.
      * exact E.
    + vm_compute in E. discriminate.
Defined.

(** * Further properties *)

(** ** The Guess record *)

(** The constructor gives every property the confidence it was called
    with, [0] when it was called with none. *)
Theorem Guess_init_gives_confidence :
  forall (C : Type) `(PyNum C) (d : gmap string value) (c : option C)
         (k : string) (v : value),
    d !! k = Some v ->
    at_key (Guess_init d c) k
    = (Some v, Some (match c with Some c => c | None => num_zero end)) /\
    Guess_confidence (Guess_init d c) k
    = Ok (match c with Some c => c | None => num_zero end) /\
    has_confidences (Guess_init d c).
Proof.
  intros C HC d c k v Hk. split; [|split].
  - unfold at_key. rewrite Guess_init_confidence. cbn [items Guess_init].
    rewrite Hk. reflexivity.
  - unfold Guess_confidence, getitem. rewrite Guess_init_confidence, Hk.
    reflexivity.
  - apply Guess_init_has_confidences.
Qed.

Lemma Guess_init_gives_confidence_witness :
  at_key (Guess_init (C := spec_float) (list_to_map [("season", VInt 2)]) None) "season"
  = (Some (VInt 2), Some (S754_zero false)) /\
  Guess_confidence (guess_of [("season", VInt 2)] (f64_lit 6 10)) "season"
  = Ok (f64_lit 6 10).
Proof.
  split.
  - destruct (@Guess_init_gives_confidence spec_float _
                (list_to_map [("season", VInt 2)]) None "season" (VInt 2))
      as (Hat & _ & _); [reflexivity | exact Hat].
  - destruct (@Guess_init_gives_confidence spec_float _
                (list_to_map [("season", VInt 2)]) (Some (f64_lit 6 10))
                "season" (VInt 2))
      as (_ & Hconf & _); [reflexivity | exact Hconf].
Defined.

(** [set] with a confidence: the property then has that value and that
    confidence, the other properties are as they were, and a guess
    that had a confidence for each property still has. *)
Theorem Guess_set_then_confidence :
  forall (C : Type) `(PyNum C) (g : Guess C) (k : string) (v : value) (c : C),
    at_key (Guess_set g k v (Some c)) k = (Some v, Some c) /\
    Guess_confidence (Guess_set g k v (Some c)) k = Ok c /\
    (forall k' : string, k' <> k ->
       at_key (Guess_set g k v (Some c)) k' = at_key g k') /\
    (has_confidences g -> has_confidences (Guess_set g k v (Some c))).
Proof.
  intros C HC g k v c. split; [|split; [|split]].
  - unfold at_key. simpl. rewrite !lookup_insert_eq. reflexivity.
  - unfold Guess_confidence, getitem. simpl. rewrite lookup_insert_eq.
    reflexivity.
  - intros k' Hne. unfold at_key. simpl.
    rewrite !lookup_insert_ne by congruence. reflexivity.
  - apply Guess_set_some_has_confidences.
Qed.

Lemma Guess_set_then_confidence_witness :
  has_confidences (Guess_set (guess_of [("season", VInt 1)] (f64_lit 9 10))
                             "year" (VInt 2006) (Some (f64_lit 5 10))).
Proof.
  destruct (@Guess_set_then_confidence spec_float _
              (guess_of [("season", VInt 1)] (f64_lit 9 10))
              "year" (VInt 2006) (f64_lit 5 10)) as (_ & _ & _ & Hinv).
  apply Hinv. apply Guess_init_has_confidences.
Defined.

Section UpdateFacts.
Context {C : Type} {num : PyNum C}.

Lemma Guess_confidence_some (g : Guess C) (k : string) (c : C) :
  _confidence g !! k = Some c -> Guess_confidence g k = Ok c.
Proof. intros E. unfold Guess_confidence, getitem. rewrite E. reflexivity. Qed.

Lemma Guess_confidence_none (g : Guess C) (k : string) :
  _confidence g !! k = None -> Guess_confidence g k = Raise KeyError.
Proof. intros E. unfold Guess_confidence, getitem. rewrite E. reflexivity. Qed.

Lemma update_confidence_loop (o : Guess C) (l : list string) :
  forall s : Guess C,
    (forall k, k ∈ l -> is_Some (_confidence o !! k)) ->
    exists s',
      for_each (fun self prop =>
                  c ← Guess_confidence o prop;
                  Ok (Guess_set_confidence self prop c)) s l = Ok s' /\
      items s' = items s /\
      forall k, _confidence s' !! k
                = if decide (k ∈ l) then _confidence o !! k
                  else _confidence s !! k.
Proof.
  induction l as [|x l IH]; intros s Hconf; cbn [for_each].
  - exists s. split; [reflexivity|]. split; [reflexivity|].
    intros k. case_decide as Hin; [|reflexivity].
    apply elem_of_nil in Hin. contradiction.
  - destruct (Hconf x) as [cx Hcx]; [left|].
    rewrite (Guess_confidence_some o x cx Hcx). cbn [mbind outcome_bind].
    destruct (IH (Guess_set_confidence s x cx)) as (s' & Hs' & Hitems & Hc).
    { intros k Hk. apply Hconf. right. exact Hk. }
    exists s'. split; [exact Hs'|]. split; [rewrite Hitems; reflexivity|].
    intros k. rewrite Hc. cbn [_confidence Guess_set_confidence].
    destruct (decide (k ∈ l)) as [Hin|Hnin];
      destruct (decide (k ∈ x :: l)) as [Hin'|Hnin']; try reflexivity.
    + exfalso. apply Hnin'. right. exact Hin.
    + apply elem_of_cons in Hin'. destruct Hin' as [->|Hin']; [|contradiction].
      rewrite lookup_insert_eq. symmetry. exact Hcx.
    + apply lookup_insert_ne. intros ->. apply Hnin'. left.
Qed.

Lemma update_confidence_loop_raises (o : Guess C) (l : list string) (k : string) :
  k ∈ l -> _confidence o !! k = None ->
  forall s : Guess C,
    for_each (fun self prop =>
                c ← Guess_confidence o prop;
                Ok (Guess_set_confidence self prop c)) s l = Raise KeyError.
Proof.
  intros Hin Hk. induction l as [|x l IH]; intros s.
  - apply elem_of_nil in Hin. contradiction.
  - cbn [for_each].
    destruct (_confidence o !! x) as [cx|] eqn:Hx.
    + rewrite (Guess_confidence_some o x cx Hx). cbn [mbind outcome_bind].
      apply IH. apply elem_of_cons in Hin.
      destruct Hin as [->|Hin]; [congruence | exact Hin].
    + rewrite (Guess_confidence_none o x Hx). reflexivity.
Qed.

Lemma set_confidence_loop (c : C) (l : list string) :
  forall s : Guess C,
    items (foldl (fun self prop => Guess_set_confidence self prop c) s l)
    = items s /\
    forall k,
      _confidence (foldl (fun self prop => Guess_set_confidence self prop c) s l)
        !! k
      = if decide (k ∈ l) then Some c else _confidence s !! k.
Proof.
  induction l as [|x l IH]; intros s; cbn [foldl].
  - split; [reflexivity|]. intros k. case_decide as Hin; [|reflexivity].
    apply elem_of_nil in Hin. contradiction.
  - destruct (IH (Guess_set_confidence s x c)) as [Hitems Hc].
    split; [rewrite Hitems; reflexivity|].
    intros k. rewrite Hc. cbn [_confidence Guess_set_confidence].
    destruct (decide (k ∈ l)) as [Hin|Hnin];
      destruct (decide (k ∈ x :: l)) as [Hin'|Hnin']; try reflexivity.
    + exfalso. apply Hnin'. right. exact Hin.
    + apply elem_of_cons in Hin'. destruct Hin' as [->|Hin']; [|contradiction].
      apply lookup_insert_eq.
    + apply lookup_insert_ne. intros ->. apply Hnin'. left.
Qed.

Lemma Guess_update_guess_at (self other : Guess C) (confidence : option C) :
  has_confidences other ->
  exists s',
    Guess_update self (GuessObj other) confidence = Ok s' /\
    forall k, at_key s' k
              = updated_at self (items other) (_confidence other) confidence k.
Proof.
  intros Hother. unfold Guess_update. cbn [mapping_items].
  destruct (update_confidence_loop other (keys (items other))
              (mkGuess (items other ∪ items self) (_confidence self)))
    as (s1 & Hs1 & Hitems & Hc).
  { intros k Hk. apply Hother, elem_of_keys. exact Hk. }
  rewrite Hs1. cbn [mbind outcome_bind].
  assert (Hval : forall k, items s1 !! k
                           = match items other !! k with
                             | Some v => Some v
                             | None => items self !! k
                             end).
  { intros k. rewrite Hitems. cbn [items]. rewrite lookup_union.
    destruct (items other !! k), (items self !! k); reflexivity. }
  destruct confidence as [c|].
  - eexists. split; [reflexivity|]. intros k. unfold at_key, updated_at.
    destruct (set_confidence_loop c (keys (items other)) s1) as [Hitems' Hc'].
    rewrite Hitems', Hc', Hval, Hc. cbn [_confidence].
    destruct (decide (k ∈ keys (items other))) as [Hin|Hnin].
    + apply elem_of_keys in Hin. destruct Hin as [v ->]. reflexivity.
    + destruct (items other !! k) eqn:Hk; [|reflexivity].
      exfalso. apply Hnin, elem_of_keys. eauto.
  - exists s1. split; [reflexivity|]. intros k. unfold at_key, updated_at.
    rewrite Hval, Hc. cbn [_confidence].
    destruct (decide (k ∈ keys (items other))) as [Hin|Hnin].
    + apply elem_of_keys in Hin. destruct Hin as [v ->]. reflexivity.
    + destruct (items other !! k) eqn:Hk; [|reflexivity].
      exfalso. apply Hnin, elem_of_keys. eauto.
Qed.

Lemma updated_at_has_confidences (self s' : Guess C) (d : gmap string value)
    (conf : gmap string C) (confidence : option C) :
  has_confidences self ->
  (forall k, is_Some (d !! k) ->
             is_Some (match confidence with Some c => Some c | None => conf !! k end)) ->
  (forall k, at_key s' k = updated_at self d conf confidence k) ->
  has_confidences s'.
Proof.
  intros Hself Hd Hat k Hk. specialize (Hat k). unfold at_key, updated_at in Hat.
  destruct (d !! k) as [v|] eqn:Hdk.
  - injection Hat as _ ->. apply Hd. rewrite Hdk. eauto.
  - injection Hat as E1 ->. apply Hself. rewrite <- E1. exact Hk.
Qed.

End UpdateFacts.

(** [self.update(other)] with a Guess [other] that has a confidence for
    each of its properties returns normally; every property of [other]
    is then in [self] with the value and the confidence of [other],
    whatever [self] held for it, an explicit [confidence] argument
    taking the place of the confidences of [other]; the properties
    that [other] does not have are as they were, and [self] still has a
    confidence for each property if it had. *)
Theorem Guess_update_from_guess :
  forall (C : Type) `(PyNum C) (self other : Guess C) (confidence : option C),
    has_confidences other ->
    exists s' : Guess C,
      Guess_update self (GuessObj other) confidence = Ok s' /\
      (forall (k : string) (v : value) (co : C),
          items other !! k = Some v -> _confidence other !! k = Some co ->
          at_key s' k = (Some v, Some (match confidence with
                                       | Some c => c
                                       | None => co
                                       end))) /\
      (forall k : string,
          items other !! k = None -> at_key s' k = at_key self k) /\
      (has_confidences self -> has_confidences s').
Proof.
  intros C HC self other confidence Hother.
  destruct (Guess_update_guess_at self other confidence Hother) as (s' & Hs' & Hat).
  exists s'. split; [exact Hs'|]. split; [|split].
  - intros k v co Hv Hco. rewrite Hat. unfold updated_at. rewrite Hv, Hco.
    destruct confidence; reflexivity.
  - intros k Hv. rewrite Hat. unfold updated_at. rewrite Hv. reflexivity.
  - intros Hself.
    apply (updated_at_has_confidences self s' (items other) (_confidence other)
             confidence Hself); [|exact Hat].
    intros k Hk. destruct confidence; [eauto | apply Hother, Hk].
Qed.

Lemma Guess_update_from_guess_witness :
  exists s' : Guess spec_float,
    Guess_update (guess_of [("season", VInt 1); ("title", VStr "Dexter")] (f64_lit 9 10))
                 (GuessObj (guess_of [("season", VInt 2)] (f64_lit 1 10))) None
    = Ok s' /\
    at_key s' "season" = (Some (VInt 2), Some (f64_lit 1 10)) /\
    at_key s' "title" = (Some (VStr "Dexter"), Some (f64_lit 9 10)).
Proof.
  destruct (@Guess_update_from_guess spec_float _
              (guess_of [("season", VInt 1); ("title", VStr "Dexter")] (f64_lit 9 10))
              (guess_of [("season", VInt 2)] (f64_lit 1 10)) None)
    as (s' & Hrun & Hkeys & Hrest & _).
  - apply Guess_init_has_confidences.
  - exists s'. split; [exact Hrun|]. split.
    + apply (Hkeys "season" (VInt 2) (f64_lit 1 10)); reflexivity.
    + rewrite (Hrest "title"); reflexivity.
Defined.

(** [self.update(other)] with a Guess [other] that lacks the confidence
    of one of its properties raises [KeyError], also when an explicit
    [confidence] is given. *)
Theorem Guess_update_missing_confidence :
  forall (C : Type) `(PyNum C) (self other : Guess C) (confidence : option C)
         (k : string) (v : value),
    items other !! k = Some v -> _confidence other !! k = None ->
    Guess_update self (GuessObj other) confidence = Raise KeyError.
Proof.
  intros C HC self other confidence k v Hv Hc. unfold Guess_update.
  cbn [mapping_items].
  rewrite (update_confidence_loop_raises other (keys (items other)) k).
  - reflexivity.
  - apply elem_of_keys. eauto.
  - exact Hc.
Qed.

Lemma Guess_update_missing_confidence_witness :
  Guess_update (guess_of [("season", VInt 1)] (f64_lit 9 10))
               (GuessObj (Guess_set (Guess_init (C := spec_float) ∅ None)
                                    "year" (VInt 2006) None))
               (Some (f64_lit 5 10))
  = Raise KeyError.
Proof.
  apply (@Guess_update_missing_confidence spec_float _ _ _ _ "year" (VInt 2006));
    reflexivity.
Defined.

(** [self.update(other)] with a plain dict never raises: the values of
    [other] replace those of [self]; the confidences of its properties
    become the explicit [confidence] if there is one and are left as
    they were otherwise, so that a new property has none. *)
Theorem Guess_update_from_dict :
  forall (C : Type) `(PyNum C) (self : Guess C) (d : gmap string value)
         (confidence : option C),
    exists s' : Guess C,
      Guess_update self (PlainDict d) confidence = Ok s' /\
      (forall (k : string) (v : value),
          d !! k = Some v ->
          at_key s' k = (Some v, match confidence with
                                 | Some c => Some c
                                 | None => _confidence self !! k
                                 end)) /\
      (forall k : string, d !! k = None -> at_key s' k = at_key self k).
Proof.
  intros C HC self d confidence. unfold Guess_update. cbn [mapping_items mbind outcome_bind].
  destruct confidence as [c|].
  - eexists. split; [reflexivity|].
    destruct (set_confidence_loop c (keys d)
                (mkGuess (d ∪ items self) (_confidence self))) as [Hitems Hc].
    split.
    + intros k v Hv. unfold at_key. rewrite Hitems, Hc. cbn [items].
      rewrite lookup_union, Hv.
      destruct (decide (k ∈ keys d)) as [_|Hnin].
      * destruct (items self !! k); reflexivity.
      * exfalso. apply Hnin, elem_of_keys. eauto.
    + intros k Hv. unfold at_key. rewrite Hitems, Hc. cbn [items _confidence].
      rewrite lookup_union, Hv.
      destruct (decide (k ∈ keys d)) as [Hin|_].
      * apply elem_of_keys in Hin. rewrite Hv in Hin. destruct Hin; discriminate.
      * destruct (items self !! k); reflexivity.
  - eexists. split; [reflexivity|]. split.
    + intros k v Hv. unfold at_key. cbn [items _confidence].
      rewrite lookup_union, Hv. destruct (items self !! k); reflexivity.
    + intros k Hv. unfold at_key. cbn [items _confidence].
      rewrite lookup_union, Hv. destruct (items self !! k); reflexivity.
Qed.

Lemma Guess_update_from_dict_witness :
  exists s' : Guess spec_float,
    Guess_update (guess_of [("season", VInt 1)] (f64_lit 9 10))
                 (PlainDict (list_to_map [("year", VInt 2006)])) None
    = Ok s' /\
    at_key s' "year" = (Some (VInt 2006), None) /\
    at_key s' "season" = (Some (VInt 1), Some (f64_lit 9 10)).
Proof.
  destruct (@Guess_update_from_dict spec_float _
              (guess_of [("season", VInt 1)] (f64_lit 9 10))
              (list_to_map [("year", VInt 2006)]) None)
    as (s' & Hrun & Hkeys & Hrest).
  exists s'. split; [exact Hrun|]. split.
  - rewrite (Hkeys "year" (VInt 2006)); reflexivity.
  - rewrite (Hrest "season"); reflexivity.
Defined.

(** ** [update_highest_confidence] *)

Section HighestFacts.
Context {C : Type} {num : PyNum C}.

Lemma update_highest_confidence_step_raises (other self : Guess C) (k : string) :
  is_Some (items other !! k) -> _confidence other !! k = None ->
  update_highest_confidence_step other self k = Raise KeyError.
Proof.
  intros [v Hv] Hc. unfold update_highest_confidence_step, getitem.
  rewrite Hv, Hc. destruct (contains_key (items self) k); [|reflexivity].
  destruct (_confidence self !! k); reflexivity.
Qed.

Lemma update_highest_confidence_step_exn (other self : Guess C) (k : string)
    (e : exn) :
  update_highest_confidence_step other self k = Raise e -> e = KeyError.
Proof.
  unfold update_highest_confidence_step, getitem.
  destruct (contains_key (items self) k).
  - destruct (_confidence self !! k) as [cs|]; cbn [mbind outcome_bind];
      [|intros E; injection E as <-; reflexivity].
    destruct (_confidence other !! k) as [co|]; cbn [mbind outcome_bind];
      [|intros E; injection E as <-; reflexivity].
    destruct (num_leb co cs); [intros E; discriminate E|].
    destruct (items other !! k); cbn [mbind outcome_bind];
      intros E; [discriminate E | injection E as <-; reflexivity].
  - cbn [mbind outcome_bind].
    destruct (items other !! k); cbn [mbind outcome_bind];
      [|intros E; injection E as <-; reflexivity].
    destruct (_confidence other !! k); cbn [mbind outcome_bind];
      intros E; [discriminate E | injection E as <-; reflexivity].
Qed.

Lemma update_highest_confidence_loop_raises (other : Guess C) (l : list string)
    (k : string) :
  k ∈ l -> is_Some (items other !! k) -> _confidence other !! k = None ->
  forall self : Guess C,
    for_each (update_highest_confidence_step other) self l = Raise KeyError.
Proof.
  intros Hin Hv Hc. induction l as [|x l IH]; intros self.
  - apply elem_of_nil in Hin. contradiction.
  - cbn [for_each].
    destruct (update_highest_confidence_step other self x) as [s1|e] eqn:Hstep;
      cbn [mbind outcome_bind].
    + apply IH. apply elem_of_cons in Hin. destruct Hin as [->|Hin]; [|exact Hin].
      rewrite (update_highest_confidence_step_raises other self x Hv Hc) in Hstep.
      discriminate Hstep.
    + apply update_highest_confidence_step_exn in Hstep. rewrite Hstep.
      reflexivity.
Qed.

Lemma highest_at_again (self other s1 : Guess C) (k : string) :
  (is_Some (items self !! k) -> is_Some (_confidence self !! k)) ->
  at_key s1 k = highest_at self other k ->
  highest_at s1 other k = at_key s1 k.
Proof.
  intros Hself Hat. unfold at_key in Hat. unfold highest_at at 1, at_key.
  unfold highest_at in Hat.
  destruct (items other !! k) as [v|]; [|reflexivity].
  destruct (_confidence other !! k) as [co|]; [|reflexivity].
  destruct (items self !! k) as [vs|] eqn:Hvs.
  - destruct Hself as [cs Hcs]; [eauto|]. rewrite Hcs in Hat.
    destruct (num_leb co cs) eqn:Hle; injection Hat as -> ->.
    + rewrite Hle. reflexivity.
    + destruct (num_leb co co); reflexivity.
  - assert (E : items s1 !! k = Some v /\ _confidence s1 !! k = Some co).
    { destruct (_confidence self !! k); injection Hat as -> ->; auto. }
    destruct E as [-> ->]. destruct (num_leb co co); reflexivity.
Qed.

Lemma highest_at_self (self : Guess C) (k : string) :
  (is_Some (items self !! k) -> is_Some (_confidence self !! k)) ->
  highest_at self self k = at_key self k.
Proof.
  intros Hself. unfold highest_at, at_key.
  destruct (items self !! k) as [v|]; [|reflexivity].
  destruct Hself as [c ->]; [eauto|]. destruct (num_leb c c); reflexivity.
Qed.

End HighestFacts.

(** [self.update_highest_confidence(other)] raises [KeyError] as soon
    as [other] has a property without a confidence, whatever [self]
    holds. *)
Theorem update_highest_confidence_missing_confidence :
  forall (C : Type) `(PyNum C) (self other : Guess C) (k : string) (v : value),
    items other !! k = Some v -> _confidence other !! k = None ->
    Guess_update_highest_confidence self other = Raise KeyError.
Proof.
  intros C HC self other k v Hv Hc. unfold Guess_update_highest_confidence.
  apply (update_highest_confidence_loop_raises other (keys (items other)) k).
  - apply elem_of_keys. eauto.
  - eauto.
  - exact Hc.
Qed.

Lemma update_highest_confidence_missing_confidence_witness :
  Guess_update_highest_confidence
    (guess_of [("season", VInt 1)] (f64_lit 9 10))
    (Guess_set (guess_of [("season", VInt 2)] (f64_lit 5 10))
               "year" (VInt 2006) None)
  = Raise KeyError.
Proof.
  apply (@update_highest_confidence_missing_confidence spec_float _ _ _
           "year" (VInt 2006)); reflexivity.
Defined.

(** [update_highest_confidence] is idempotent: for guesses that have a
    confidence for each property, a second call with the same [other]
    returns normally and changes no value and no confidence; in
    particular the result still has a confidence for each property. *)
Theorem update_highest_confidence_idempotent :
  forall (C : Type) `(PyNum C) (self other : Guess C),
    has_confidences self -> has_confidences other ->
    exists s1 s2 : Guess C,
      Guess_update_highest_confidence self other = Ok s1 /\
      Guess_update_highest_confidence s1 other = Ok s2 /\
      has_confidences s1 /\
      forall k : string, at_key s2 k = at_key s1 k.
Proof.
  intros C HC self other Hself Hother.
  destruct (update_highest_confidence_at self other Hself Hother)
    as (s1 & Hs1 & Hat1).
  assert (Hinv : has_confidences s1)
    by (apply (update_highest_confidence_has_confidences self other s1); assumption).
  destruct (update_highest_confidence_at s1 other Hinv Hother)
    as (s2 & Hs2 & Hat2).
  exists s1, s2. split; [exact Hs1|]. split; [exact Hs2|]. split; [exact Hinv|].
  intros k. rewrite Hat2. apply (highest_at_again self other s1 k).
  - apply Hself.
  - apply Hat1.
Qed.

Lemma update_highest_confidence_idempotent_witness :
  exists s1 s2 : Guess spec_float,
    Guess_update_highest_confidence
      (guess_of [("season", VInt 1); ("title", VStr "Dexter")] (f64_lit 3 10))
      (guess_of [("season", VInt 2); ("year", VInt 2006)] (f64_lit 5 10))
    = Ok s1 /\
    Guess_update_highest_confidence s1
      (guess_of [("season", VInt 2); ("year", VInt 2006)] (f64_lit 5 10))
    = Ok s2 /\
    at_key s2 "season" = at_key s1 "season".
Proof.
  destruct (@update_highest_confidence_idempotent spec_float _
              (guess_of [("season", VInt 1); ("title", VStr "Dexter")] (f64_lit 3 10))
              (guess_of [("season", VInt 2); ("year", VInt 2006)] (f64_lit 5 10)))
    as (s1 & s2 & H1 & H2 & _ & Hsame).
  - apply Guess_init_has_confidences.
  - apply Guess_init_has_confidences.
  - exists s1, s2. split; [exact H1|]. split; [exact H2|]. apply Hsame.
Defined.

(** [update_highest_confidence] never drops a property: the result has
    exactly the properties of [self] and those of [other]; and merging
    a guess into itself changes nothing. *)
Theorem update_highest_confidence_properties :
  forall (C : Type) `(PyNum C) (self other : Guess C),
    has_confidences self -> has_confidences other ->
    exists s' : Guess C,
      Guess_update_highest_confidence self other = Ok s' /\
      (forall k : string,
          is_Some (items s' !! k)
          <-> is_Some (items self !! k) \/ is_Some (items other !! k)) /\
      exists s'' : Guess C,
        Guess_update_highest_confidence self self = Ok s'' /\
        forall k : string, at_key s'' k = at_key self k.
Proof.
  intros C HC self other Hself Hother.
  destruct (update_highest_confidence_at self other Hself Hother)
    as (s' & Hs' & Hat).
  exists s'. split; [exact Hs'|]. split.
  - intros k. specialize (Hat k). unfold at_key, highest_at in Hat.
    specialize (Hself k). specialize (Hother k).
    destruct (items other !! k) as [v|].
    + destruct Hother as [co Hco]; [eauto|]. rewrite Hco in Hat.
      destruct (items self !! k) as [vs|].
      * destruct Hself as [cs Hcs]; [eauto|]. rewrite Hcs in Hat.
        destruct (num_leb co cs); injection Hat as -> _; split; eauto.
      * assert (E : items s' !! k = Some v)
          by (destruct (_confidence self !! k); injection Hat as -> _; reflexivity).
        rewrite E. split; eauto.
    + assert (E : items s' !! k = items self !! k)
        by (destruct (_confidence other !! k); injection Hat as -> _; reflexivity).
      rewrite E. split; [eauto|]. intros [Hk|Hk]; [exact Hk|].
      destruct Hk; discriminate.
  - destruct (update_highest_confidence_at self self Hself Hself)
      as (s'' & Hs'' & Hat'').
    exists s''. split; [exact Hs''|]. intros k. rewrite Hat''.
    apply highest_at_self. apply Hself.
Qed.

Lemma update_highest_confidence_properties_witness :
  exists s' : Guess spec_float,
    Guess_update_highest_confidence
      (guess_of [("season", VInt 1); ("title", VStr "Dexter")] (f64_lit 3 10))
      (guess_of [("season", VInt 2); ("year", VInt 2006)] (f64_lit 5 10))
    = Ok s' /\
    is_Some (items s' !! "title") /\ is_Some (items s' !! "year").
Proof.
  destruct (@update_highest_confidence_properties spec_float _
              (guess_of [("season", VInt 1); ("title", VStr "Dexter")] (f64_lit 3 10))
              (guess_of [("season", VInt 2); ("year", VInt 2006)] (f64_lit 5 10)))
    as (s' & Hrun & Hdom & _).
  - apply Guess_init_has_confidences.
  - apply Guess_init_has_confidences.
  - exists s'. split; [exact Hrun|]. split; apply Hdom.
    + left. vm_compute. eauto.
    + right. vm_compute. eauto.
Defined.

(** ** The scalar reconcilers *)

Lemma SFmul_comm (x y : spec_float) : SFmul prec emax x y = SFmul prec emax y x.
Proof.
  destruct x as [sx|sx| |sx mx ex], y as [sy|sy| |sy my ey]; simpl;
    try reflexivity; try (rewrite (xorb_comm sx sy); reflexivity).
  rewrite (xorb_comm sx sy), (Pos.mul_comm mx my), (Z.add_comm ex ey).
  reflexivity.
Qed.

#[global] Instance float_sym : PyNumSym spec_float.
Proof.
  split; intros a b; simpl.
  - apply SFmul_comm.
  - unfold SFeqb. rewrite (SFcompare_swap b a).
    destruct (SFcompare b a) as [[]|]; reflexivity.
Qed.

#[global] Instance fraction_sym : PyNumSym Q.
Proof.
  split; intros a b; simpl.
  - apply Qred_complete. apply Qmult_comm.
  - destruct (Qeq_bool a b) eqn:E, (Qeq_bool b a) eqn:E'; try reflexivity.
    + apply Qeq_bool_iff in E. symmetry in E. apply Qeq_bool_iff in E. congruence.
    + apply Qeq_bool_iff in E'. symmetry in E'. apply Qeq_bool_iff in E'. congruence.
Qed.

Lemma value_eqb_sym (a b : value) : value_eqb a b = value_eqb b a.
Proof.
  destruct (value_eqb a b) eqn:E, (value_eqb b a) eqn:E'; try reflexivity.
  - apply value_eqb_eq in E. subst. rewrite value_eqb_refl in E'. discriminate.
  - apply value_eqb_eq in E'. subst. rewrite value_eqb_refl in E. discriminate.
Qed.




Lemma lstrip_fixed (s : string) : starts_with_space s = false -> lstrip s = s.
Proof. destruct s as [|c s]; simpl; [reflexivity|]. intros ->. reflexivity. Qed.

Lemma rstrip_fixed (s : string) : ends_with_space s = false -> rstrip s = s.
Proof.
  induction s as [|c s IH]; [reflexivity|].
  destruct s as [|d s]; simpl.
  - intros ->. reflexivity.
  - intros He. simpl in IH. rewrite (IH He). reflexivity.
Qed.

Lemma strip_idempotent (s : string) : strip (strip s) = strip s.
Proof.
  destruct (strip_ends s) as [Hs He]. unfold strip at 1.
  rewrite (lstrip_fixed _ Hs). apply rstrip_fixed. exact He.
Qed.

Section ChooseStringMore.
Context {C : Type} {num : PyNum C}.

Lemma choose_string_confidence_ext (v1 v2 w1 w2 : string) (c1 c2 : C) :
  lower (strip v1) = lower (strip w1) ->
  lower (strip v2) = lower (strip w2) ->
  (choose_string (v1, c1) (v2, c2)).2 = (choose_string (w1, c1) (w2, c2)).2 /\
  ((choose_string (v1, c1) (v2, c2)).1 = strip v1 /\
   (choose_string (w1, c1) (w2, c2)).1 = strip w1 \/
   (choose_string (v1, c1) (v2, c2)).1 = strip v2 /\
   (choose_string (w1, c1) (w2, c2)).1 = strip w2).
Proof.
  intros E1 E2. unfold choose_string. rewrite E1, E2.
  repeat match goal with
         | |- context [if ?b then _ else _] => destruct b
         end; simpl; auto.
Qed.

End ChooseStringMore.

(** The two ends of the decision list of [choose_string]: strings whose
    trimmed, lower-cased forms are equal give the first string,
    trimmed, with the combined probability; strings whose forms are
    different, neither ["the "] plus the other nor contained in the
    other, are in conflict: the one with the strictly higher confidence
    is returned with the difference of the confidences, and the second
    one when the first is not strictly higher. *)
Theorem choose_string_equal_or_conflict :
  forall (C : Type) `(PyNum C) (v1 v2 : string) (c1 c2 : C),
    (lower (strip v1) = lower (strip v2) ->
     choose_string (v1, c1) (v2, c2)
     = (strip v1,
        num_sub num_one (num_mul (num_sub num_one c1) (num_sub num_one c2)))) /\
    (lower (strip v1) <> lower (strip v2) ->
     lower (strip v1) <> String.append "the " (lower (strip v2)) ->
     lower (strip v2) <> String.append "the " (lower (strip v1)) ->
     py_in (lower (strip v2)) (lower (strip v1)) = false ->
     py_in (lower (strip v1)) (lower (strip v2)) = false ->
     choose_string (v1, c1) (v2, c2)
     = if num_ltb c2 c1 then (strip v1, num_sub c1 c2)
       else (strip v2, num_sub c2 c1)).
Proof.
  intros C HC v1 v2 c1 c2. split.
  - intros E. unfold choose_string. rewrite E, String.eqb_refl. reflexivity.
  - intros Hne H1 H2 Hin1 Hin2. unfold choose_string.
    apply String.eqb_neq in Hne, H1, H2.
    rewrite Hne, H1, H2, Hin1, Hin2. reflexivity.
Qed.

Lemma choose_string_equal_or_conflict_witness :
  choose_string (" DEXTER", f64_lit 5 10) ("Dexter ", f64_lit 5 10)
  = ("DEXTER", f64_lit 75 100) /\
  choose_string ("Alien", f64_lit 6 10) ("Predator", f64_lit 4 10)
  = ("Alien", num_sub (f64_lit 6 10) (f64_lit 4 10)) /\
  choose_string ("Alien", f64_lit 5 10) ("Predator", f64_lit 5 10)
  = ("Predator", num_sub (f64_lit 5 10) (f64_lit 5 10)).
Proof.
  destruct (@choose_string_equal_or_conflict spec_float _ " DEXTER" "Dexter "
              (f64_lit 5 10) (f64_lit 5 10)) as [Hequal _].
  destruct (@choose_string_equal_or_conflict spec_float _ "Alien" "Predator"
              (f64_lit 6 10) (f64_lit 4 10)) as [_ Hhigh].
  destruct (@choose_string_equal_or_conflict spec_float _ "Alien" "Predator"
              (f64_lit 5 10) (f64_lit 5 10)) as [_ Htie].
  refine (conj _ (conj _ _)).
  - rewrite Hequal; vm_compute; reflexivity.
  - rewrite Hhigh; try (vm_compute; (reflexivity || discriminate)).
  - rewrite Htie; try (vm_compute; (reflexivity || discriminate)).
Defined.

(** [choose_string] decides on the trimmed, lower-cased forms only:
    trimming the strings beforehand changes nothing, and two pairs of
    strings with the same forms get the same confidence and the same
    side as the winner. *)
Theorem choose_string_normal_forms :
  forall (C : Type) `(PyNum C) (v1 v2 : string) (c1 c2 : C),
    choose_string (strip v1, c1) (strip v2, c2) = choose_string (v1, c1) (v2, c2) /\
    forall w1 w2 : string,
      lower (strip v1) = lower (strip w1) ->
      lower (strip v2) = lower (strip w2) ->
      (choose_string (v1, c1) (v2, c2)).2 = (choose_string (w1, c1) (w2, c2)).2 /\
      ((choose_string (v1, c1) (v2, c2)).1 = strip v1 /\
       (choose_string (w1, c1) (w2, c2)).1 = strip w1 \/
       (choose_string (v1, c1) (v2, c2)).1 = strip v2 /\
       (choose_string (w1, c1) (w2, c2)).1 = strip w2).
Proof.
  intros C HC v1 v2 c1 c2. split.
  - unfold choose_string. rewrite !strip_idempotent. reflexivity.
  - intros w1 w2. apply choose_string_confidence_ext.
Qed.

Lemma choose_string_normal_forms_witness :
  (choose_string ("The Wire", f64_lit 6 10) ("wire", f64_lit 4 10)).2
  = (choose_string (" THE WIRE ", f64_lit 6 10) ("Wire", f64_lit 4 10)).2.
Proof.
  destruct (@choose_string_normal_forms spec_float _ "The Wire" "wire"
              (f64_lit 6 10) (f64_lit 4 10)) as [_ Hforms].
  destruct (Hforms " THE WIRE " "Wire") as [Hconf _];
    [reflexivity | reflexivity | exact Hconf].
Defined.

(** ** Pairwise merge *)

Section PairwiseMore.
Context {C : Type} {num : PyNum C}.

Lemma list_remove_splits (h : ref -> Guess C) (x : ref) (l l' : list ref) :
  list_remove h x l = Ok l' ->
  exists (l1 : list ref) (e : ref) (l2 : list ref),
    l = l1 ++ e :: l2 /\ l' = l1 ++ l2 /\
    (e = x \/ dict_eqb (items (h e)) (items (h x)) = true).
Proof.
  revert l'. induction l as [|g l IH]; intros l'; cbn [list_remove].
  - intros E. discriminate E.
  - destruct (Nat.eqb g x || dict_eqb (items (h g)) (items (h x))) eqn:Hg.
    + intros E. injection E as <-. exists [], g, l.
      split; [reflexivity|]. split; [reflexivity|].
      apply orb_true_iff in Hg. destruct Hg as [Hg|Hg]; [left|right; exact Hg].
      apply Nat.eqb_eq. exact Hg.
    + destruct (list_remove h x l) as [l''|e] eqn:Hrec; cbn [mbind outcome_bind];
        intros E; [|discriminate E].
      injection E as <-.
      destruct (IH l'' eq_refl) as (l1 & e & l2 & -> & -> & He).
      exists (g :: l1), e, l2. auto.
Qed.

Lemma list_remove_In (h : ref -> Guess C) (x : ref) (l : list ref) :
  In x l -> exists l', list_remove h x l = Ok l'.
Proof.
  induction l as [|g l IH]; intros Hin; [destruct Hin|]. cbn [list_remove].
  destruct (Nat.eqb g x || dict_eqb (items (h g)) (items (h x))) eqn:Hg; [eauto|].
  destruct Hin as [->|Hin].
  - rewrite Nat.eqb_refl in Hg. discriminate Hg.
  - destruct (IH Hin) as [l' ->]. cbn [mbind outcome_bind]. eauto.
Qed.

Lemma similar_guesses_In (h : ref -> Guess C) (prop : string) (l : list ref)
    (g : ref) :
  In g (similar_guesses h prop l) -> In g l.
Proof. unfold similar_guesses. rewrite filter_In. tauto. Qed.


(** A pairwise step that returns has either changed nothing or removed
    one entry of the list, touching no object but the first two
    carriers. *)
Lemma nocheck_returns
    (choose : value * C -> value * C -> outcome (value * C))
    (prop : string) (st st' : state C) :
  _merge_similar_guesses_nocheck choose prop st = Ok st' ->
  st' = st \/
  exists (g1 g2 : ref) (rest : list ref),
    similar_guesses (heap st) prop (guesses st) = g1 :: g2 :: rest /\
    (exists (l1 : list ref) (e : ref) (l2 : list ref),
        guesses st = l1 ++ e :: l2 /\ guesses st' = l1 ++ l2) /\
    forall r : ref, r <> g1 -> r <> g2 -> heap st' r = heap st r.
Proof.
  unfold _merge_similar_guesses_nocheck.
  destruct (similar_guesses (heap st) prop (guesses st)) as [|g1 [|g2 rest]] eqn:Hsim;
    cbn [py_index nth_error mbind outcome_bind]; try (intros E; discriminate E).
  destruct (Nat.ltb 1 (common_props (heap st g1) (heap st g2))).
  { intros E. injection E as <-. left. reflexivity. }
  destruct (getitem (items (heap st g1)) prop) as [v1|e];
    cbn [mbind outcome_bind]; [|intros E; discriminate E].
  destruct (getitem (items (heap st g2)) prop) as [v2|e];
    cbn [mbind outcome_bind]; [|intros E; discriminate E].
  destruct (Guess_confidence (heap st g1) prop) as [c1|e];
    cbn [mbind outcome_bind]; [|intros E; discriminate E].
  destruct (Guess_confidence (heap st g2) prop) as [c2|e];
    cbn [mbind outcome_bind]; [|intros E; discriminate E].
  destruct (choose (v1, c1) (v2, c2)) as [nv|e];
    cbn [mbind outcome_bind]; [|intros E; discriminate E].
  match goal with
  | |- context [Guess_update ?a ?b ?c] =>
      destruct (Guess_update a b c) as [g1'|e]
  end; cbn [mbind outcome_bind]; [|intros E; discriminate E].
  match goal with
  | |- context [list_remove ?a ?b ?c] =>
      destruct (list_remove a b c) as [l|e] eqn:Hrem
  end; cbn [mbind outcome_bind]; [|intros E; discriminate E].
  intros E. injection E as <-. right. exists g1, g2, rest.
  split; [reflexivity|]. split.
  - apply list_remove_splits in Hrem.
    destruct Hrem as (l1 & e & l2 & Hl & Hl' & _). exists l1, e, l2. auto.
  - intros r Hr1 Hr2. cbn [heap].
    rewrite fn_lookup_insert_ne by congruence.
    rewrite fn_lookup_insert_ne by congruence. reflexivity.
Qed.



End PairwiseMore.

(** [_merge_similar_guesses_nocheck] assumes two guesses that carry the
    property: with fewer it raises [IndexError]. *)
Theorem nocheck_needs_two_guesses :
  forall (C : Type) `(PyNum C)
         (choose : value * C -> value * C -> outcome (value * C))
         (prop : string) (st : state C),
    length (similar_guesses (heap st) prop (guesses st)) < 2 ->
    _merge_similar_guesses_nocheck choose prop st = Raise IndexError.
Proof.
  intros C HC choose prop st Hlen. unfold _merge_similar_guesses_nocheck.
  destruct (similar_guesses (heap st) prop (guesses st)) as [|g1 [|g2 rest]];
    [reflexivity | reflexivity | simpl in Hlen; lia].
Qed.

Lemma nocheck_needs_two_guesses_witness :
  _merge_similar_guesses_nocheck choose_int_value "year" ambiguous_state
  = Raise IndexError /\
  _merge_similar_guesses_nocheck choose_int_value "season"
    (mkState (heap ambiguous_state) [2])
  = Raise IndexError.
Proof.
  split.
  - apply (@nocheck_needs_two_guesses spec_float _). vm_compute. lia.
  - apply (@nocheck_needs_two_guesses spec_float _). vm_compute. lia.
Defined.

(** A pairwise step that returns never lengthens the working list:
    either the state is exactly as it was, or the list has lost one
    entry, the others keeping their order, and no object other than
    the first two carriers of the property has changed. *)
Theorem nocheck_unchanged_or_shorter :
  forall (C : Type) `(PyNum C)
         (choose : value * C -> value * C -> outcome (value * C))
         (prop : string) (st st' : state C),
    _merge_similar_guesses_nocheck choose prop st = Ok st' ->
    st' = st \/
    exists (g1 g2 : ref) (rest : list ref),
      similar_guesses (heap st) prop (guesses st) = g1 :: g2 :: rest /\
      (exists (l1 : list ref) (e : ref) (l2 : list ref),
          guesses st = l1 ++ e :: l2 /\ guesses st' = l1 ++ l2) /\
      forall r : ref, r <> g1 -> r <> g2 -> heap st' r = heap st r.
Proof. intros C HC choose prop st st'. apply nocheck_returns. Qed.

Lemma nocheck_unchanged_or_shorter_witness :
  match _merge_similar_guesses_nocheck choose_int_value "season"
          three_seasons_state with
  | Ok st' =>
      st' = three_seasons_state \/
      exists (g1 g2 : ref) (rest : list ref),
        similar_guesses (heap three_seasons_state) "season"
          (guesses three_seasons_state) = g1 :: g2 :: rest /\
        (exists (l1 : list ref) (e : ref) (l2 : list ref),
            guesses three_seasons_state = l1 ++ e :: l2 /\
            guesses st' = l1 ++ l2) /\
        forall r : ref, r <> g1 -> r <> g2 ->
                        heap st' r = heap three_seasons_state r
  | Raise _ => False
  end.
Proof.
  destruct (_merge_similar_guesses_nocheck choose_int_value "season"
              three_seasons_state) as [st'|e] eqn:Hrun.
  - apply (@nocheck_unchanged_or_shorter spec_float _ choose_int_value "season"
             three_seasons_state st' Hrun).
  - vm_compute in Hrun. discriminate Hrun.
Defined.



Section PairFacts.
Context {C : Type} {num : PyNum C}.

Lemma similar_guesses_ext (h h' : ref -> Guess C) (prop : string) (l : list ref) :
  (forall g, contains_key (items (h' g)) prop = contains_key (items (h g)) prop) ->
  similar_guesses h' prop l = similar_guesses h prop l.
Proof. intros E. unfold similar_guesses. apply List.filter_ext. exact E. Qed.

Lemma list_remove_shorter (h : ref -> Guess C) (x : ref) (l l' : list ref) :
  list_remove h x l = Ok l' -> S (length l') = length l.
Proof.
  intros E. apply list_remove_splits in E.
  destruct E as (l1 & e & l2 & -> & -> & _). rewrite !length_app. simpl. lia.
Qed.

End PairFacts.

(** When the first two guesses carrying the property are two objects
    with no other property in common, both have a confidence for it,
    the second has its confidences and [choose] returns, the pairwise
    step returns: the first guess holds the chosen value with the
    chosen confidence and has taken every other property of the second
    one with its confidence, the second guess holds the chosen value
    too, no other object has changed, and the list has lost one
    entry. *)
Theorem nocheck_merges_pair :
  forall (C : Type) `(PyNum C)
         (choose : value * C -> value * C -> outcome (value * C))
         (prop : string) (st : state C) (g1 g2 : ref) (rest : list ref)
         (v1 v2 nv : value) (c1 c2 nc : C),
    similar_guesses (heap st) prop (guesses st) = g1 :: g2 :: rest ->
    g1 <> g2 ->
    common_props (heap st g1) (heap st g2) <= 1 ->
    has_confidences (heap st g2) ->
    at_key (heap st g1) prop = (Some v1, Some c1) ->
    at_key (heap st g2) prop = (Some v2, Some c2) ->
    choose (v1, c1) (v2, c2) = Ok (nv, nc) ->
    exists st' : state C,
      _merge_similar_guesses_nocheck choose prop st = Ok st' /\
      at_key (heap st' g1) prop = (Some nv, Some nc) /\
      (forall (k : string) (v : value) (c : C),
          k <> prop -> at_key (heap st g2) k = (Some v, Some c) ->
          at_key (heap st' g1) k = (Some v, Some c)) /\
      (forall k : string,
          items (heap st g2) !! k = None ->
          at_key (heap st' g1) k = at_key (heap st g1) k) /\
      heap st' g2
      = Guess_set_confidence (Guess_setitem (heap st g2) prop nv) prop nc /\
      (forall r : ref, r <> g1 -> r <> g2 -> heap st' r = heap st r) /\
      S (length (guesses st')) = length (guesses st).
Proof.
  intros C HC choose prop st g1 g2 rest v1 v2 nv c1 c2 nc
         Hsim Hne Hcommon Hconf2 Hat1 Hat2 Hchoose.
  unfold at_key in Hat1, Hat2.
  injection Hat1 as Hv1 Hc1. injection Hat2 as Hv2 Hc2.
  unfold _merge_similar_guesses_nocheck. rewrite Hsim.
  cbn [py_index nth_error mbind outcome_bind].
  replace (Nat.ltb 1 (common_props (heap st g1) (heap st g2))) with false
    by (symmetry; apply Nat.ltb_ge; exact Hcommon).
  unfold Guess_confidence, getitem. rewrite Hv1, Hv2, Hc1, Hc2.
  cbn [mbind outcome_bind]. rewrite Hchoose. cbn [mbind outcome_bind fst snd].
  rewrite fn_lookup_insert.
  rewrite fn_lookup_insert_ne by congruence.
  set (g2' := Guess_set_confidence (Guess_setitem (heap st g2) prop nv) prop nc).
  assert (Hg2' : has_confidences g2').
  { apply (Guess_set_some_has_confidences (heap st g2) prop nv nc). exact Hconf2. }
  destruct (Guess_update_guess_at (heap st g1) g2' None Hg2') as (s' & Hs' & Hat).
  rewrite Hs'. cbn [mbind outcome_bind].
  destruct (list_remove_In (<[g1 := s']> (<[g2 := g2']> (heap st))) g2 (guesses st))
    as [l Hl].
  { apply (similar_guesses_In (heap st) prop). rewrite Hsim. right. left. reflexivity. }
  rewrite Hl. cbn [mbind outcome_bind].
  eexists. split; [reflexivity|]. cbn [heap guesses].
  rewrite fn_lookup_insert.
  rewrite fn_lookup_insert_ne by congruence. rewrite fn_lookup_insert.
  split; [|split; [|split; [|split; [|split]]]].
  - rewrite Hat. unfold updated_at. subst g2'. cbn [items _confidence
      Guess_set_confidence Guess_setitem].
    rewrite !lookup_insert_eq. reflexivity.
  - intros k v c Hk Hkat. unfold at_key in Hkat. injection Hkat as Hkv Hkc.
    rewrite Hat. unfold updated_at. subst g2'. cbn [items _confidence
      Guess_set_confidence Guess_setitem].
    rewrite !lookup_insert_ne by congruence. rewrite Hkv, Hkc. reflexivity.
  - intros k Hk. rewrite Hat. unfold updated_at. subst g2'. cbn [items _confidence
      Guess_set_confidence Guess_setitem].
    rewrite lookup_insert_ne by (intros <-; congruence).
    rewrite Hk. reflexivity.
  - reflexivity.
  - intros r Hr1 Hr2. rewrite !fn_lookup_insert_ne by congruence. reflexivity.
  - apply list_remove_shorter in Hl. exact Hl.
Qed.

Lemma nocheck_merges_pair_witness :
  exists st' : state spec_float,
    _merge_similar_guesses_nocheck choose_int_value "season" three_seasons_state
    = Ok st' /\
    at_key (heap st' 0) "season"
    = (Some (VInt 1), Some (combined_prob (f64_lit 8 10) (f64_lit 5 10))) /\
    at_key (heap st' 0) "episodeNumber" = (Some (VInt 2), Some (f64_lit 8 10)) /\
    S (length (guesses st')) = 3.
Proof.
  destruct (@nocheck_merges_pair spec_float _ choose_int_value "season"
              three_seasons_state 0 1 [2] (VInt 1) (VInt 1) (VInt 1)
              (f64_lit 8 10) (f64_lit 5 10)
              (combined_prob (f64_lit 8 10) (f64_lit 5 10)))
    as (st' & Hrun & Hprop & _ & Hrest & _ & _ & Hlen).
  - reflexivity.
  - discriminate.
  - vm_compute. lia.
  - apply Guess_init_has_confidences.
  - reflexivity.
  - reflexivity.
  - reflexivity.
  - exists st'. split; [exact Hrun|]. split; [exact Hprop|]. split.
    + rewrite (Hrest "episodeNumber"); reflexivity.
    + exact Hlen.
Defined.

(** ** Append merge, continued *)

Section AppendMore.
Context {C : Type} {num : PyNum C}.

Lemma keys_singleton {V : Type} (k : string) (v : V) :
  keys ({[k := v]} : gmap string V) = [k].
Proof. unfold keys. rewrite map_to_list_singleton. reflexivity. Qed.

Lemma similar_guesses_setitem (h : ref -> Guess C) (prop : string) (l : list ref)
    (g : ref) (v : value) :
  is_Some (items (h g) !! prop) ->
  similar_guesses (<[g := Guess_setitem (h g) prop v]> h) prop l
  = similar_guesses h prop l.
Proof.
  intros [w Hw]. apply similar_guesses_ext. intros r.
  destruct (decide (r = g)) as [->|Hne].
  - rewrite fn_lookup_insert. unfold contains_key. cbn [items Guess_setitem].
    rewrite lookup_insert_eq, Hw. reflexivity.
  - rewrite fn_lookup_insert_ne by congruence. reflexivity.
Qed.

Lemma merge_append_guesses_one (prop : string) (st : state C) (merged : ref)
    (v : value) :
  similar_guesses (heap st) prop (guesses st) = [merged] ->
  items (heap st merged) !! prop = Some v ->
  merge_append_guesses prop st
  = Ok (mkState (<[merged := Guess_setitem (heap st merged) prop (VList [v])]>
                   (heap st))
                (guesses st)).
Proof.
  intros Hsim Hv. unfold merge_append_guesses. rewrite Hsim.
  unfold getitem. rewrite Hv. reflexivity.
Qed.

End AppendMore.

(** With one guess carrying the property, [merge_append_guesses] wraps
    its value in a one-element list and changes nothing else: not the
    confidence, not another object, not the list.  The guess is still
    the only carrier, so that calling the function again wraps the
    list once more. *)
Theorem merge_append_guesses_single :
  forall (C : Type) `(PyNum C) (prop : string) (st : state C) (merged : ref)
         (v : value),
    similar_guesses (heap st) prop (guesses st) = [merged] ->
    items (heap st merged) !! prop = Some v ->
    exists st' st'' : state C,
      merge_append_guesses prop st = Ok st' /\
      guesses st' = guesses st /\
      heap st' merged = Guess_setitem (heap st merged) prop (VList [v]) /\
      (forall r : ref, r <> merged -> heap st' r = heap st r) /\
      merge_append_guesses prop st' = Ok st'' /\
      items (heap st'' merged) !! prop = Some (VList [VList [v]]).
Proof.
  intros C HC prop st merged v Hsim Hv.
  rewrite (merge_append_guesses_one prop st merged v Hsim Hv).
  eexists. eexists. split; [reflexivity|]. cbn [heap guesses].
  split; [reflexivity|]. split; [apply fn_lookup_insert|].
  split; [intros r Hr; apply fn_lookup_insert_ne; congruence|].
  split.
  - apply (merge_append_guesses_one prop _ merged (VList [v])); cbn [heap guesses].
    + rewrite similar_guesses_setitem by eauto. exact Hsim.
    + rewrite fn_lookup_insert. cbn [items Guess_setitem]. apply lookup_insert_eq.
  - cbn [heap]. rewrite fn_lookup_insert. cbn [items Guess_setitem].
    apply lookup_insert_eq.
Qed.

Lemma merge_append_guesses_single_witness :
  exists st' st'' : state spec_float,
    merge_append_guesses "episodeNumber" three_seasons_state = Ok st' /\
    items (heap st' 0) !! "episodeNumber" = Some (VList [VInt 2]) /\
    merge_append_guesses "episodeNumber" st' = Ok st'' /\
    items (heap st'' 0) !! "episodeNumber" = Some (VList [VList [VInt 2]]).
Proof.
  destruct (@merge_append_guesses_single spec_float _ "episodeNumber"
              three_seasons_state 0 (VInt 2))
    as (st' & st'' & Hrun & _ & Hmerged & _ & Hagain & Htwice).
  - reflexivity.
  - reflexivity.
  - exists st', st''. split; [exact Hrun|]. split; [|split].
    + rewrite Hmerged. reflexivity.
    + exact Hagain.
    + exact Htwice.
Defined.

(** With two guesses carrying the property, two different objects, the
    second one carrying nothing else, [merge_append_guesses] returns:
    the first guess holds the list of the two values, in the order of
    the guesses, and is otherwise as it was, its confidence for the
    property included; no other object has changed; the list has lost
    one entry, which is the second guess or a guess equal to it. *)
Theorem merge_append_guesses_pair :
  forall (C : Type) `(PyNum C) (prop : string) (st : state C) (merged m : ref)
         (v x : value),
    similar_guesses (heap st) prop (guesses st) = [merged; m] ->
    merged <> m ->
    items (heap st merged) !! prop = Some v ->
    items (heap st m) = {[prop := x]} ->
    exists st' : state C,
      merge_append_guesses prop st = Ok st' /\
      heap st' merged = Guess_setitem (heap st merged) prop (VList [v; x]) /\
      (forall r : ref, r <> merged -> heap st' r = heap st r) /\
      exists (l1 : list ref) (e : ref) (l2 : list ref),
        guesses st = l1 ++ e :: l2 /\ guesses st' = l1 ++ l2 /\
        (e = m \/ dict_eqb (items (heap st' e)) (items (heap st' m)) = true).
Proof.
  intros C HC prop st merged m v x Hsim Hne Hv Hm.
  unfold merge_append_guesses. rewrite Hsim.
  unfold getitem at 1. rewrite Hv. cbn [mbind outcome_bind for_each heap guesses].
  rewrite fn_lookup_insert_ne by exact Hne.
  rewrite Hm, keys_singleton. cbn [for_each].
  rewrite (merge_append_step_same prop merged m _ [v] x).
  2:{ rewrite fn_lookup_insert. cbn [items Guess_setitem]. apply lookup_insert_eq. }
  2:{ rewrite fn_lookup_insert_ne by exact Hne. rewrite Hm. apply lookup_singleton_eq. }
  cbn [mbind outcome_bind app].
  rewrite fn_lookup_insert.
  match goal with
  | |- context [list_remove ?h m (guesses st)] =>
      destruct (list_remove_In h m (guesses st)) as [l Hl]
  end.
  { apply (similar_guesses_In (heap st) prop). rewrite Hsim. right. left. reflexivity. }
  rewrite Hl. cbn [mbind outcome_bind].
  eexists. split; [reflexivity|]. cbn [heap guesses].
  split; [|split].
  - rewrite fn_lookup_insert. unfold Guess_setitem. cbn [items _confidence].
    rewrite insert_insert_eq. reflexivity.
  - intros r Hr. rewrite !fn_lookup_insert_ne by congruence. reflexivity.
  - apply list_remove_splits in Hl. exact Hl.
Qed.

Lemma merge_append_guesses_pair_witness :
  exists st' : state spec_float,
    merge_append_guesses "language" languages_state = Ok st' /\
    at_key (heap st' 0) "language"
    = (Some (VList [VStr "en"; VStr "fr"]), Some (f64_lit 8 10)) /\
    S (length (guesses st')) = 2.
Proof.
  destruct (@merge_append_guesses_pair spec_float _ "language" languages_state
              0 1 (VStr "en") (VStr "fr"))
    as (st' & Hrun & Hmerged & _ & l1 & e & l2 & Hl & Hl' & _).
  - reflexivity.
  - discriminate.
  - reflexivity.
  - reflexivity.
  - exists st'. split; [exact Hrun|]. split.
    + rewrite Hmerged. reflexivity.
    + rewrite Hl'. change 2 with (length (guesses languages_state)).
      rewrite Hl, !length_app. simpl. lia.
Defined.

(** ** Final reduction, continued *)

Section FinalFacts.
Context {C : Type} {num : PyNum C}.

Lemma Guess_delitem_some (g : Guess C) (p : string) :
  is_Some (items g !! p) ->
  Guess_delitem g p = Ok (mkGuess (delete p (items g)) (_confidence g)).
Proof.
  intros [v Hv]. unfold Guess_delitem, contains_key. rewrite Hv. reflexivity.
Qed.


(** *** The pruning loop *)

Lemma merge_all_prune_step_post (result : ref) (h h1 : ref -> Guess C) (p : string) :
  merge_all_prune_step result h p = Ok h1 ->
  (forall g, g <> result -> h1 g = h g) /\
  _confidence (h1 result) = _confidence (h result) /\
  (forall k v, items (h1 result) !! k = Some v -> items (h result) !! k = Some v) /\
  (forall v, items (h1 result) !! p = Some v ->
             exists c, _confidence (h result) !! p = Some c /\
                       num_ltb c num_0_05 = false).
Proof.
  unfold merge_all_prune_step, Guess_confidence, getitem.
  destruct (_confidence (h result) !! p) as [c|] eqn:Hc;
    cbn [mbind outcome_bind]; [|intros E; discriminate E].
  destruct (num_ltb c num_0_05) eqn:Hlow.
  - unfold Guess_delitem.
    destruct (contains_key (items (h result)) p);
      cbn [mbind outcome_bind]; [|intros E; discriminate E].
    intros E. injection E as <-. rewrite fn_lookup_insert. cbn [items _confidence].
    split; [intros g Hg; apply fn_lookup_insert_ne; congruence|].
    split; [reflexivity|]. split.
    + intros k v Hk. destruct (decide (p = k)) as [->|Hne].
      * rewrite lookup_delete_eq in Hk. discriminate Hk.
      * rewrite lookup_delete_ne in Hk by exact Hne. exact Hk.
    + intros v Hv. rewrite lookup_delete_eq in Hv. discriminate Hv.
  - intros E. injection E as <-.
    split; [reflexivity|]. split; [reflexivity|]. split; [auto|].
    intros v _. exists c. split; [reflexivity | exact Hlow].
Qed.

Lemma merge_all_prune_loop_post (result : ref) (l : list string) :
  forall h h' : ref -> Guess C,
    for_each (merge_all_prune_step result) h l = Ok h' ->
    (forall g, g <> result -> h' g = h g) /\
    _confidence (h' result) = _confidence (h result) /\
    (forall k v, items (h' result) !! k = Some v -> items (h result) !! k = Some v) /\
    (forall k v, k ∈ l -> items (h' result) !! k = Some v ->
                 exists c, _confidence (h result) !! k = Some c /\
                           num_ltb c num_0_05 = false).
Proof.
  induction l as [|p l IH]; intros h h'; cbn [for_each].
  - intros E. injection E as <-.
    split; [reflexivity|]. split; [reflexivity|]. split; [auto|].
    intros k v Hk. apply elem_of_nil in Hk. contradiction.
  - destruct (merge_all_prune_step result h p) as [h1|e] eqn:Hstep;
      cbn [mbind outcome_bind]; [|intros E; discriminate E].
    intros E. apply IH in E. destruct E as (Hf' & Hc' & Hsub' & Hlow').
    apply merge_all_prune_step_post in Hstep.
    destruct Hstep as (Hf & Hc & Hsub & Hlow).
    split; [intros g Hg; rewrite Hf' by exact Hg; apply Hf; exact Hg|].
    split; [rewrite Hc'; exact Hc|].
    split; [intros k v Hk; eapply Hsub, Hsub', Hk|].
    intros k v Hk Hv. apply elem_of_cons in Hk. destruct Hk as [->|Hk].
    + apply (Hlow v). apply Hsub'. exact Hv.
    + rewrite <- Hc. apply (Hlow' k v Hk Hv).
Qed.

Lemma merge_all_prune_step_exn (result : ref) (h : ref -> Guess C) (p : string)
    (e : exn) :
  merge_all_prune_step result h p = Raise e -> e = KeyError.
Proof.
  unfold merge_all_prune_step, Guess_confidence, getitem.
  destruct (_confidence (h result) !! p) as [c|];
    cbn [mbind outcome_bind]; [|intros E; injection E as <-; reflexivity].
  destruct (num_ltb c num_0_05); [|intros E; discriminate E].
  unfold Guess_delitem.
  destruct (contains_key (items (h result)) p); cbn [mbind outcome_bind];
    intros E; [discriminate E | injection E as <-; reflexivity].
Qed.

Lemma merge_all_prune_loop_raises (result : ref) (l : list string) (k : string) :
  k ∈ l ->
  forall h : ref -> Guess C,
    _confidence (h result) !! k = None ->
    for_each (merge_all_prune_step result) h l = Raise KeyError.
Proof.
  intros Hin. induction l as [|p l IH]; intros h Hk.
  - apply elem_of_nil in Hin. contradiction.
  - cbn [for_each].
    destruct (merge_all_prune_step result h p) as [h1|e] eqn:Hstep;
      cbn [mbind outcome_bind].
    + pose proof (merge_all_prune_step_post result h h1 p Hstep)
        as (_ & Hc & _ & _).
      apply elem_of_cons in Hin. destruct Hin as [->|Hin].
      * unfold merge_all_prune_step, Guess_confidence, getitem in Hstep.
        rewrite Hk in Hstep. discriminate Hstep.
      * apply IH; [exact Hin|]. rewrite Hc. exact Hk.
    + apply merge_all_prune_step_exn in Hstep. rewrite Hstep. reflexivity.
Qed.

Lemma merge_all_prune_step_low (result : ref) (h : ref -> Guess C) (p : string)
    (c : C) :
  is_Some (items (h result) !! p) -> _confidence (h result) !! p = Some c ->
  num_ltb c num_0_05 = true ->
  merge_all_prune_step result h p
  = Ok (<[result := mkGuess (delete p (items (h result)))
                            (_confidence (h result))]> h).
Proof.
  intros Hv Hc Hlow. unfold merge_all_prune_step, Guess_confidence, getitem.
  rewrite Hc. cbn [mbind outcome_bind]. rewrite Hlow.
  rewrite (Guess_delitem_some (h result) p Hv). reflexivity.
Qed.

Lemma merge_all_prune_step_keep (result : ref) (h : ref -> Guess C) (p : string)
    (c : C) :
  _confidence (h result) !! p = Some c -> num_ltb c num_0_05 = false ->
  merge_all_prune_step result h p = Ok h.
Proof.
  intros Hc Hlow. unfold merge_all_prune_step, Guess_confidence, getitem.
  rewrite Hc. cbn [mbind outcome_bind]. rewrite Hlow. reflexivity.
Qed.

Lemma merge_all_prune_loop_at (result : ref) (l : list string) :
  forall h : ref -> Guess C,
    NoDup l ->
    (forall k, k ∈ l -> is_Some (items (h result) !! k) /\
                        is_Some (_confidence (h result) !! k)) ->
    exists h',
      for_each (merge_all_prune_step result) h l = Ok h' /\
      (forall g, g <> result -> h' g = h g) /\
      _confidence (h' result) = _confidence (h result) /\
      forall k, items (h' result) !! k
                = if decide (k ∈ l) then (pruned_at (h result) k).1
                  else items (h result) !! k.
Proof.
  induction l as [|p l IH]; intros h Hnd Hl.
  - exists h. split; [reflexivity|]. split; [reflexivity|]. split; [reflexivity|].
    intros k. rewrite decide_False; [reflexivity | apply not_elem_of_nil].
  - assert (Hp : p ∉ l) by (apply NoDup_cons_1_1; exact Hnd).
    assert (Hnd' : NoDup l) by (apply NoDup_cons_1_2 in Hnd; exact Hnd).
    destruct (Hl p) as [Hpv [c Hpc]]; [left|].
    cbn [for_each].
    destruct (num_ltb c num_0_05) eqn:Hlow.
    + rewrite (merge_all_prune_step_low result h p c Hpv Hpc Hlow).
      cbn [mbind outcome_bind].
      destruct (IH (<[result := mkGuess (delete p (items (h result)))
                                        (_confidence (h result))]> h) Hnd')
        as (h' & Hrun & Hf & Hc & Hat).
      { intros k Hk. rewrite fn_lookup_insert. cbn [items _confidence].
        rewrite lookup_delete_ne by (intros <-; contradiction).
        apply Hl. right. exact Hk. }
      exists h'. split; [exact Hrun|].
      rewrite fn_lookup_insert in Hc, Hat. cbn [items _confidence] in Hc, Hat.
      split; [intros g Hg; rewrite Hf by exact Hg;
              apply fn_lookup_insert_ne; congruence|].
      split; [exact Hc|].
      intros k. rewrite Hat. unfold pruned_at. cbn [items _confidence].
      destruct (decide (k ∈ l)) as [Hk|Hk].
      * rewrite decide_True by (right; exact Hk).
        rewrite lookup_delete_ne by (intros <-; contradiction). reflexivity.
      * destruct (decide (k = p)) as [->|Hne].
        -- rewrite decide_True by left. rewrite lookup_delete_eq, Hpc, Hlow.
           reflexivity.
        -- rewrite decide_False by (intros Hin; apply elem_of_cons in Hin; tauto).
           apply lookup_delete_ne. congruence.
    + rewrite (merge_all_prune_step_keep result h p c Hpc Hlow).
      cbn [mbind outcome_bind].
      destruct (IH h Hnd') as (h' & Hrun & Hf & Hc & Hat).
      { intros k Hk. apply Hl. right. exact Hk. }
      exists h'. split; [exact Hrun|]. split; [exact Hf|]. split; [exact Hc|].
      intros k. rewrite Hat.
      destruct (decide (k ∈ l)) as [Hk|Hk].
      * rewrite decide_True by (right; exact Hk). reflexivity.
      * destruct (decide (k = p)) as [->|Hne].
        -- rewrite decide_True by left. unfold pruned_at. rewrite Hpc, Hlow.
           reflexivity.
        -- rewrite decide_False by (intros Hin; apply elem_of_cons in Hin; tauto).
           reflexivity.
Qed.

(** The pruning loop of [merge_all] on a guess that has its
    confidences. *)
Lemma merge_all_prune_at (result : ref) (h : ref -> Guess C) :
  has_confidences (h result) ->
  exists h',
    for_each (merge_all_prune_step result) h (keys (items (h result))) = Ok h' /\
    (forall g, g <> result -> h' g = h g) /\
    forall k, at_key (h' result) k = pruned_at (h result) k.
Proof.
  intros Hconf.
  destruct (merge_all_prune_loop_at result (keys (items (h result))) h)
    as (h' & Hrun & Hf & Hc & Hat).
  - apply NoDup_keys.
  - intros k Hk. apply elem_of_keys in Hk. split; [exact Hk | apply Hconf, Hk].
  - exists h'. split; [exact Hrun|]. split; [exact Hf|].
    intros k. unfold at_key. rewrite Hc, Hat. unfold pruned_at.
    destruct (decide (k ∈ keys (items (h result)))) as [Hk|Hk].
    + destruct (_confidence (h result) !! k); reflexivity.
    + assert (Hnone : items (h result) !! k = None).
      { destruct (items (h result) !! k) eqn:E; [|reflexivity].
        exfalso. apply Hk, elem_of_keys. eauto. }
      rewrite Hnone.
      destruct (_confidence (h result) !! k) as [c|]; [|reflexivity].
      destruct (num_ltb c num_0_05); reflexivity.
Qed.

Lemma pruned_at_has_confidences (g r : Guess C) :
  has_confidences g -> (forall k, at_key r k = pruned_at g k) ->
  has_confidences r.
Proof.
  intros Hg Hat k Hk. specialize (Hat k). unfold at_key, pruned_at in Hat.
  destruct (_confidence g !! k) as [c|] eqn:Hc.
  - injection Hat as _ ->. eauto.
  - injection Hat as E ->. rewrite <- Hc. apply Hg. rewrite <- E. exact Hk.
Qed.

(** *** The loop that makes the appended values unique *)

Lemma merge_all_unique_step_post (result : ref) (h h1 : ref -> Guess C)
    (prop : string) :
  merge_all_unique_step result h prop = Ok h1 ->
  (forall g, g <> result -> h1 g = h g) /\
  _confidence (h1 result) = _confidence (h result) /\
  (forall k, is_Some (items (h1 result) !! k) -> is_Some (items (h result) !! k)).
Proof.
  unfold merge_all_unique_step, contains_key, getitem.
  destruct (items (h result) !! prop) as [v|] eqn:Hv; cbn [mbind outcome_bind].
  - destruct (py_list_set v) as [l|e]; cbn [mbind outcome_bind];
      [|intros E; discriminate E].
    intros E. injection E as <-. rewrite fn_lookup_insert.
    cbn [items _confidence Guess_setitem].
    split; [intros g Hg; apply fn_lookup_insert_ne; congruence|].
    split; [reflexivity|].
    intros k Hk. destruct (decide (prop = k)) as [<-|Hne].
    + rewrite Hv. eauto.
    + rewrite lookup_insert_ne in Hk by exact Hne. exact Hk.
  - intros E. injection E as <-. auto.
Qed.

Lemma merge_all_unique_loop_post (result : ref) (l : list string) :
  forall h h' : ref -> Guess C,
    for_each (merge_all_unique_step result) h l = Ok h' ->
    (forall g, g <> result -> h' g = h g) /\
    _confidence (h' result) = _confidence (h result) /\
    (forall k, is_Some (items (h' result) !! k) -> is_Some (items (h result) !! k)).
Proof.
  induction l as [|p l IH]; intros h h'; cbn [for_each].
  - intros E. injection E as <-. auto.
  - destruct (merge_all_unique_step result h p) as [h1|e] eqn:Hstep;
      cbn [mbind outcome_bind]; [|intros E; discriminate E].
    intros E. apply IH in E. destruct E as (Hf' & Hc' & Hsub').
    apply merge_all_unique_step_post in Hstep. destruct Hstep as (Hf & Hc & Hsub).
    split; [intros g Hg; rewrite Hf' by exact Hg; apply Hf; exact Hg|].
    split; [rewrite Hc'; exact Hc|].
    intros k Hk. apply Hsub, Hsub', Hk.
Qed.

(** *** The main loop without appended properties *)

Lemma highest_at_source (self other : Guess C) (k : string) :
  highest_at self other k = at_key self k \/
  (is_Some (items other !! k) /\ highest_at self other k = at_key other k).
Proof.
  unfold highest_at, at_key.
  destruct (items other !! k) as [v|]; [|left; reflexivity].
  destruct (_confidence other !! k) as [co|]; [|left; reflexivity].
  destruct (items self !! k) as [vs|]; [|right; eauto].
  destruct (_confidence self !! k) as [cs|]; [|right; eauto].
  destruct (num_leb co cs); [left; reflexivity | right; eauto].
Qed.

Lemma merge_all_step_no_append (result : ref) (h : ref -> Guess C) (g : ref) :
  merge_all_step [] result h g
  = (r ← Guess_update_highest_confidence (h result) (h g);
     Ok (<[result := r]> h)).
Proof. reflexivity. Qed.

Lemma merge_all_main_loop (h0 : ref -> Guess C) (result : ref) (rest : list ref) :
  (forall g, g ∈ rest -> has_confidences (h0 g)) ->
  forall h : ref -> Guess C,
    (forall g, g <> result -> h g = h0 g) ->
    has_confidences (h result) ->
    exists h',
      for_each (merge_all_step [] result) h rest = Ok h' /\
      (forall g, g <> result -> h' g = h0 g) /\
      has_confidences (h' result) /\
      forall k, at_key (h' result) k = at_key (h result) k \/
                exists g, g ∈ rest /\ g <> result /\
                          is_Some (items (h0 g) !! k) /\
                          at_key (h' result) k = at_key (h0 g) k.
Proof.
  induction rest as [|g rest IH]; intros Hrest h Hframe Hres.
  - exists h. split; [reflexivity|]. split; [exact Hframe|]. split; [exact Hres|].
    intros k. left. reflexivity.
  - cbn [for_each]. rewrite merge_all_step_no_append.
    assert (Hg : has_confidences (h g)).
    { destruct (decide (g = result)) as [->|Hne]; [exact Hres|].
      rewrite Hframe by exact Hne. apply Hrest. left. }
    destruct (update_highest_confidence_at (h result) (h g) Hres Hg)
      as (r & Hr & Hat).
    rewrite Hr. cbn [mbind outcome_bind].
    assert (Hrest' : forall g', g' ∈ rest -> has_confidences (h0 g')).
    { intros g' Hg'. apply Hrest. right. exact Hg'. }
    destruct (IH Hrest' (<[result := r]> h))
      as (h' & Hrun & Hframe' & Hres' & Hsrc).
    { intros g' Hg'. rewrite fn_lookup_insert_ne by congruence.
      apply Hframe. exact Hg'. }
    { rewrite fn_lookup_insert.
      apply (update_highest_confidence_has_confidences (h result) (h g) r Hres Hg Hr). }
    exists h'. split; [exact Hrun|]. split; [exact Hframe'|]. split; [exact Hres'|].
    intros k. rewrite fn_lookup_insert in Hsrc.
    destruct (Hsrc k) as [Hsame|(g' & Hin & Hne & Hv & Hfrom)].
    + rewrite Hsame, Hat.
      destruct (highest_at_source (h result) (h g) k) as [E|[Hv E]];
        [left; exact E|].
      destruct (decide (g = result)) as [->|Hne]; [left; exact E|].
      right. exists g. rewrite <- (Hframe g Hne).
      split; [left|]. split; [exact Hne|]. split; [exact Hv | exact E].
    + right. exists g'. split; [right; exact Hin|].
      split; [exact Hne|]. split; [exact Hv | exact Hfrom].
Qed.

End FinalFacts.

(** Whatever the guesses and the properties to append, a guess that
    [merge_all] returns has no very unlikely value: each of its
    properties has a confidence, which is not below [0.05]. *)
Theorem merge_all_keeps_no_unlikely_value :
  forall (C : Type) `(PyNum C) (h h' : ref -> Guess C) (guesses : list ref)
         (append : list string) (r : Guess C) (k : string) (v : value),
    merge_all h guesses append = Ok (h', r) ->
    items r !! k = Some v ->
    exists c : C, _confidence r !! k = Some c /\ num_ltb c num_0_05 = false.
Proof.
  intros C HC h h' guesses append r k v. unfold merge_all.
  destruct guesses as [|result rest].
  { intros E. injection E as _ <-. cbn [items Guess_init].
    rewrite lookup_empty. intros Hk. discriminate Hk. }
  destruct (for_each (merge_all_step append result) h rest) as [h1|e];
    cbn [mbind outcome_bind]; [|intros E; discriminate E].
  destruct (for_each (merge_all_prune_step result) h1 (keys (items (h1 result))))
    as [h2|e] eqn:Hprune; cbn [mbind outcome_bind]; [|intros E; discriminate E].
  destruct (for_each (merge_all_unique_step result) h2 append) as [h3|e] eqn:Huniq;
    cbn [mbind outcome_bind]; [|intros E; discriminate E].
  intros E. injection E as _ <-. intros Hk.
  apply merge_all_unique_loop_post in Huniq. destruct Huniq as (_ & Hc3 & Hsub3).
  apply merge_all_prune_loop_post in Hprune. destruct Hprune as (_ & Hc2 & Hsub2 & Hlow).
  destruct (Hsub3 k) as [w Hw]; [eauto|].
  rewrite Hc3, Hc2. apply (Hlow k w); [|exact Hw].
  apply elem_of_keys. eauto.
Qed.

Lemma merge_all_keeps_no_unlikely_value_witness :
  match merge_all (store_of [guess_of [("episodeNumber", VInt 27)] (f64_lit 2 100);
                             guess_of [("season", VInt 1)] (f64_lit 2 10)])
                  [0; 1] [] with
  | Ok (_, r) =>
      items r !! "season" = Some (VInt 1) /\
      exists c : spec_float,
        _confidence r !! "season" = Some c /\ num_ltb c num_0_05 = false
  | Raise _ => False
  end.
Proof.
  destruct (merge_all
              (store_of [guess_of [("episodeNumber", VInt 27)] (f64_lit 2 100);
                         guess_of [("season", VInt 1)] (f64_lit 2 10)])
              [0; 1] []) as [[h' r]|e] eqn:Hrun.
  - assert (Hseason : items r !! "season" = Some (VInt 1)).
    { pose proof Hrun as Hrun'. vm_compute in Hrun'.
      injection Hrun' as _ <-. reflexivity. }
    split; [exact Hseason|].
    apply (@merge_all_keeps_no_unlikely_value spec_float _ _ h' [0; 1] [] r
             "season" (VInt 1) Hrun Hseason).
  - vm_compute in Hrun. discriminate Hrun.
Defined.

(** With no property to append and guesses that have a confidence
    for each of their properties, [merge_all] never raises.  The guess
    it returns is the first object of the list, updated in place, no
    other object being changed; it has a confidence for each of its
    properties, and each of them is held, with the same value and the
    same confidence, by one of the guesses of the list as they were. *)
Theorem merge_all_without_append :
  forall (C : Type) `(PyNum C) (h : ref -> Guess C) (result : ref)
         (rest : list ref),
    (forall g : ref, g ∈ result :: rest -> has_confidences (h g)) ->
    exists (h' : ref -> Guess C) (r : Guess C),
      merge_all h (result :: rest) [] = Ok (h', r) /\
      h' result = r /\
      (forall g : ref, g <> result -> h' g = h g) /\
      has_confidences r /\
      forall (k : string) (v : value),
        items r !! k = Some v ->
        exists g : ref, g ∈ result :: rest /\ at_key (h g) k = at_key r k.
Proof.
  intros C HC h result rest Hall. unfold merge_all.
  destruct (merge_all_main_loop h result rest) with (h := h)
    as (h1 & Hrun1 & Hframe1 & Hres1 & Hsrc).
  { intros g Hg. apply Hall. right. exact Hg. }
  { reflexivity. }
  { apply Hall. left. }
  rewrite Hrun1. cbn [mbind outcome_bind].
  destruct (merge_all_prune_at result h1 Hres1) as (h2 & Hrun2 & Hframe2 & Hat2).
  rewrite Hrun2. cbn [mbind outcome_bind for_each].
  exists h2, (h2 result). split; [reflexivity|]. split; [reflexivity|].
  split; [intros g Hg; rewrite Hframe2 by exact Hg; apply Hframe1; exact Hg|].
  split; [apply (pruned_at_has_confidences (h1 result)); assumption|].
  intros k v Hk.
  assert (Hkept : at_key (h2 result) k = at_key (h1 result) k).
  { pose proof (Hat2 k) as E. unfold at_key, pruned_at in E |- *.
    rewrite Hk in E |- *.
    destruct (_confidence (h1 result) !! k) as [c|]; [|exact E].
    destruct (num_ltb c num_0_05); [discriminate E | exact E]. }
  rewrite Hkept.
  destruct (Hsrc k) as [Hsame|(g & Hin & _ & _ & Hfrom)].
  - exists result. split; [left | symmetry; exact Hsame].
  - exists g. split; [right; exact Hin | symmetry; exact Hfrom].
Qed.

Lemma merge_all_without_append_witness :
  exists (h' : ref -> Guess spec_float) (r : Guess spec_float),
    merge_all (heap three_seasons_state) [0; 1; 2] [] = Ok (h', r) /\
    h' 0 = r /\ has_confidences r.
Proof.
  destruct (@merge_all_without_append spec_float _ (heap three_seasons_state)
              0 [1; 2]) as (h' & r & Hrun & Hres & _ & Hconf & _).
  - intros g _. unfold three_seasons_state, guess_of, store_of. cbn [heap].
    destruct g as [|[|[|[|g]]]]; cbn [nth]; apply Guess_init_has_confidences.
  - exists h', r. split; [exact Hrun|]. split; [exact Hres | exact Hconf].
Defined.

(** On two guesses that have their confidences, with no property to
    append, [merge_all] is [update_highest_confidence] followed by the
    pruning: each property is held by the returned guess as the update
    of the first guess with the second one holds it, unless its
    confidence there is below [0.05], in which case the value is gone
    and the confidence is still recorded. *)
Theorem merge_all_two_guesses :
  forall (C : Type) `(PyNum C) (h : ref -> Guess C) (a b : ref),
    has_confidences (h a) -> has_confidences (h b) ->
    exists (h' : ref -> Guess C) (r r1 : Guess C),
      merge_all h [a; b] [] = Ok (h', r) /\
      Guess_update_highest_confidence (h a) (h b) = Ok r1 /\
      forall k : string, at_key r k = pruned_at r1 k.
Proof.
  intros C HC h a b Ha Hb. unfold merge_all. cbn [for_each].
  rewrite merge_all_step_no_append.
  destruct (update_highest_confidence_at (h a) (h b) Ha Hb) as (r1 & Hr1 & _).
  rewrite Hr1. cbn [mbind outcome_bind].
  assert (Hconf1 : has_confidences ((<[a := r1]> h) a)).
  { rewrite fn_lookup_insert.
    apply (update_highest_confidence_has_confidences (h a) (h b) r1 Ha Hb Hr1). }
  destruct (merge_all_prune_at a (<[a := r1]> h) Hconf1) as (h2 & Hrun2 & _ & Hat2).
  rewrite Hrun2. cbn [mbind outcome_bind].
  exists h2, (h2 a), r1. split; [reflexivity|]. split; [reflexivity|].
  intros k. rewrite Hat2, fn_lookup_insert. reflexivity.
Qed.

Lemma merge_all_two_guesses_witness :
  exists (h' : ref -> Guess spec_float) (r : Guess spec_float),
    merge_all (store_of [guess_of [("episodeNumber", VInt 27)] (f64_lit 2 100);
                         guess_of [("season", VInt 1)] (f64_lit 2 10)])
              [0; 1] []
    = Ok (h', r) /\
    at_key r "episodeNumber" = (None, Some (f64_lit 2 100)) /\
    at_key r "season" = (Some (VInt 1), Some (f64_lit 2 10)).
Proof.
  destruct (@merge_all_two_guesses spec_float _
              (store_of [guess_of [("episodeNumber", VInt 27)] (f64_lit 2 100);
                         guess_of [("season", VInt 1)] (f64_lit 2 10)]) 0 1)
    as (h' & r & r1 & Hrun & Hr1 & Hat).
  - apply Guess_init_has_confidences.
  - apply Guess_init_has_confidences.
  - exists h', r. split; [exact Hrun|].
    vm_compute in Hr1. injection Hr1 as <-.
    split; rewrite Hat; vm_compute; reflexivity.
Defined.

(** A single guess with a property that has no confidence makes
    [merge_all] raise [KeyError], whatever the properties to append:
    the pruning loop asks for the confidence of every property. *)
Theorem merge_all_missing_confidence :
  forall (C : Type) `(PyNum C) (h : ref -> Guess C) (result : ref)
         (append : list string) (k : string) (v : value),
    items (h result) !! k = Some v -> _confidence (h result) !! k = None ->
    merge_all h [result] append = Raise KeyError.
Proof.
  intros C HC h result append k v Hv Hc. unfold merge_all.
  cbn [for_each mbind outcome_bind].
  rewrite (merge_all_prune_loop_raises result (keys (items (h result))) k).
  - reflexivity.
  - apply elem_of_keys. eauto.
  - exact Hc.
Qed.

Lemma merge_all_missing_confidence_witness :
  merge_all (store_of [Guess_set (guess_of [("season", VInt 1)] (f64_lit 9 10))
                                 "year" (VInt 2006) None])
            [0] ["language"]
  = Raise KeyError.
Proof.
  apply (@merge_all_missing_confidence spec_float _ _ 0 ["language"]
           "year" (VInt 2006)); reflexivity.
Defined.

Section AppendingFacts.
Context {C : Type} {num : PyNum C}.




End AppendingFacts.


